(** * dragonshark-ui: the VirtualPad control-plane client

    A shallow embedding of [front-end/src/main_utils/virtualpad.js].

    The module exposes six asynchronous operations that run the
    [virtualpad-admin] command-line tool through [exec] (module
    [./processes]) and shape what the tool printed into a
    [{code, details}] object.  JavaScript values are modelled by
    [Js.Value]; an asynchronous operation is a computation in the [Async]
    monad, which records the calls made to the two collaborators of the
    module ([exec] and [JSON.parse]) and ends either with a returned
    value or with a thrown error (a rejected promise). *)

From Stdlib Require Import ZArith String List Ascii Bool Lia DecimalString.
From Stdlib Require QArith Lqa.
Import ListNotations.

Local Open Scope string_scope.
Local Open Scope Z_scope.

(* ================================================================= *)
(** ** JavaScript values *)

Module Js.

(** A JavaScript number.  Integral values are carried as [Z] (the two
    zeros are identified: [SameValueZero], [ToBoolean] and [ToString]
    do not tell them apart).  A finite number that is not integral is
    carried by its canonical [ToString] rendering, e.g. ["1.5"]. *)
Inductive Number : Type :=
| NInt (z : Z)
| NDec (repr : string)
| NNaN
| NInfinity (negative : bool).

(** Values: primitives, arrays, and plain objects as the list of their
    own properties in insertion order. *)
#[warnings="-register-all"]
Inductive Value : Type :=
| JUndefined
| JNull
| JBool (b : bool)
| JNum (n : Number)
| JStr (s : string)
| JArr (elems : list Value)
| JObj (fields : list (string * Value)).

(** Errors a computation can throw. *)
Inductive Error : Type :=
| TypeError (message : string)
| SyntaxError (message : string).

Definition int (z : Z) : Value := JNum (NInt z).

(** [ToBoolean]. *)
Definition truthy (v : Value) : bool :=
  match v with
  | JUndefined | JNull => false
  | JBool b => b
  | JNum (NInt z) => negb (z =? 0)
  | JNum NNaN => false
  | JNum _ => true
  | JStr s => negb (s =? "")%string
  | JArr _ | JObj _ => true
  end.

Definition number_same (a b : Number) : bool :=
  match a, b with
  | NInt x, NInt y => x =? y
  | NDec r, NDec s => (r =? s)%string
  | NNaN, NNaN => true
  | NInfinity x, NInfinity y => Bool.eqb x y
  | _, _ => false
  end.

(** [SameValueZero], the comparison used by [Set.prototype.has].
    Arrays and objects compare by identity; the only sets of this
    module hold primitives, which no array or object is identical to. *)
Definition same_value_zero (a b : Value) : bool :=
  match a, b with
  | JUndefined, JUndefined => true
  | JNull, JNull => true
  | JBool x, JBool y => Bool.eqb x y
  | JNum x, JNum y => number_same x y
  | JStr x, JStr y => (x =? y)%string
  | _, _ => false
  end.

(** [new Set([...]).has(v)]. *)
Definition Set_has (members : list Value) (v : Value) : bool :=
  existsb (same_value_zero v) members.

(** [v === "<literal>"]. *)
Definition strict_equals_str (v : Value) (literal : string) : bool :=
  match v with
  | JStr s => (s =? literal)%string
  | _ => false
  end.

Definition number_to_string (n : Number) : string :=
  match n with
  | NInt z => NilZero.string_of_int (Z.to_int z)
  | NDec repr => repr
  | NNaN => "NaN"
  | NInfinity false => "Infinity"
  | NInfinity true => "-Infinity"
  end.

(** [ToString], as applied by template literals and by
    [Array.prototype.join] (which renders [undefined] and [null]
    elements as the empty string). *)
Fixpoint to_string (v : Value) : string :=
  match v with
  | JUndefined => "undefined"
  | JNull => "null"
  | JBool true => "true"
  | JBool false => "false"
  | JNum n => number_to_string n
  | JStr s => s
  | JArr elems =>
      String.concat ","
        (map (fun e => match e with
                       | JUndefined | JNull => ""
                       | _ => to_string e
                       end) elems)
  | JObj _ => "[object Object]"
  end.

Definition join_element (e : Value) : string :=
  match e with
  | JUndefined | JNull => ""
  | _ => to_string e
  end.

(** [elems.join(sep)]. *)
Definition Array_join (elems : list Value) (sep : string) : string :=
  String.concat sep (map join_element elems).

(** Property read [o.key] on a plain object; [None] is [undefined]. *)
Fixpoint lookup (key : string) (fields : list (string * Value)) : option Value :=
  match fields with
  | [] => None
  | (k, v) :: rest => if (k =? key)%string then Some v else lookup key rest
  end.

Definition get (key : string) (v : Value) : option Value :=
  match v with
  | JObj fields => lookup key fields
  | _ => None
  end.

(** The own property names of a plain object. *)
Definition keys (v : Value) : list string :=
  match v with
  | JObj fields => map fst fields
  | _ => []
  end.

End Js.

Export Js.

(* ================================================================= *)
(** ** The command invoker and asynchronous computations *)

(** The [result] member of what [exec] resolves to; [code] is the exit
    status of the process, [None] when the process produced none. *)
Record ExecResult : Type := mkExecResult { code : option Z }.

(** Modelled from the spec: [exec] of [./processes] is required by the
    module but its source file is not available.  Its
    contract is the Command Invoker's: run one command line, never
    throw, and resolve to the captured output streams together with the
    process result.  The module reads the result with [result?.code],
    so the result itself may be missing. *)
Record ExecOutcome : Type := mkExecOutcome {
  stdout : string;
  stderr : string;
  result : option ExecResult
}.

(** An invoker answers every command line with an outcome. *)
Definition Invoker : Type := string -> ExecOutcome.

(** Calls made to the collaborators of the module. *)
Inductive Event : Type :=
| EvExec (commandLine : string)
| EvParse (text : string).

(** How a computation ends: [return v] or [throw e]. *)
Inductive Completion (A : Type) : Type :=
| Returned (value : A)
| Thrown (error : Error).

Arguments Returned {A} value.
Arguments Thrown {A} error.

(** An asynchronous computation, run against an invoker: its completion
    and the calls it made, in order. *)
Definition Async (A : Type) : Type := Invoker -> Completion A * list Event.

Definition ret {A} (a : A) : Async A := fun _ => (Returned a, []).

Definition throw {A} (e : Error) : Async A := fun _ => (Thrown e, []).

Definition bind {A B} (m : Async A) (k : A -> Async B) : Async B :=
  fun inv =>
    match m inv with
    | (Returned a, t1) => let (c, t2) := k a inv in (c, (t1 ++ t2)%list)
    | (Thrown e, t1) => (Thrown e, t1)
    end.

(** [await exec(commandLine)]. *)
Definition exec (commandLine : string) : Async ExecOutcome :=
  fun inv => (Returned (inv commandLine), [EvExec commandLine]).

Definition tell (ev : Event) : Async unit := fun _ => (Returned tt, [ev]).

Declare Scope async_scope.
Delimit Scope async_scope with async.
Notation "'let*' x ':=' m 'in' k" := (bind m (fun x => k))
  (at level 10, x name, m at level 100, k at level 200) : async_scope.
Notation "m ';;' k" := (bind m (fun _ => k))
  (at level 100, k at level 200, right associativity) : async_scope.

Definition completion {A} (r : Completion A * list Event) : Completion A := fst r.
Definition events {A} (r : Completion A * list Event) : list Event := snd r.

(** The command lines a run handed to [exec]. *)
Fixpoint commands (t : list Event) : list string :=
  match t with
  | [] => []
  | EvExec c :: rest => c :: commands rest
  | EvParse _ :: rest => commands rest
  end.

(** The texts a run handed to [JSON.parse]. *)
Fixpoint parsed (t : list Event) : list string :=
  match t with
  | [] => []
  | EvExec _ :: rest => parsed rest
  | EvParse s :: rest => s :: parsed rest
  end.

(* ================================================================= *)
(** ** virtualpad.js *)

(** [result?.code || 0]. *)
Definition code_of (o : ExecOutcome) : Z :=
  match result o with
  | None => 0
  | Some r =>
      match code r with
      | None => 0
      | Some n => if n =? 0 then 0 else n
      end
  end.

(** [const _pads = new Set([0, ..., 7, "0", ..., "7"])]. *)
Definition _pads : list Value :=
  [int 0; int 1; int 2; int 3; int 4; int 5; int 6; int 7;
   JStr "0"; JStr "1"; JStr "2"; JStr "3"; JStr "4"; JStr "5"; JStr "6"; JStr "7"].

Section VirtualPad.

(** [JSON.parse] of the host: [None] when it throws. *)
Variable JSON_parse : string -> option Value.

Local Open Scope async_scope.

Definition jsonParse (value : string) : Async Value :=
  tell (EvParse value) ;;
  match JSON_parse value with
  | Some v => ret v
  | None =>
      ret (JObj [("status", JStr "error"); ("hint", JStr "unknown");
                 ("dump", JStr value)])
  end.

Definition startServer : Async Value :=
  let* o := exec "virtualpad-admin server start" in
  let code := code_of o in
  let* details :=
    if truthy (int code)
    then ret (JObj [("satus", JStr "error"); ("hint", JStr "unknown");
                    ("dump", JStr (stderr o))])
    else jsonParse (stdout o) in
  ret (JObj [("code", int code); ("details", details)]).

Definition stopServer : Async Value :=
  let* o := exec "virtualpad-admin server stop" in
  let code := code_of o in
  let* details :=
    if truthy (int code)
    then ret (JObj [("satus", JStr "error"); ("hint", JStr "unknown");
                    ("dump", JStr (stderr o))])
    else jsonParse (stdout o) in
  ret (JObj [("code", int code); ("details", details)]).

Definition checkServer : Async Value :=
  let* o := exec "virtualpad-admin server check" in
  let code := code_of o in
  let* details :=
    if truthy (int code)
    then ret (JObj [("satus", JStr "error"); ("hint", JStr "unknown");
                    ("dump", JStr (stderr o))])
    else jsonParse (stdout o) in
  ret (JObj [("code", int code); ("details", details)]).

Definition clearPad (pad : Value) : Async Value :=
  if strict_equals_str pad "all" then
    let* o := exec "virtualpad-admin pad clear-all" in
    let code := code_of o in
    ret (JObj [("code", int code);
               ("details",
                if truthy (int code)
                then JObj [("satus", JStr "error"); ("hint", JStr "unknown");
                           ("dump", JStr (stderr o))]
                else JObj [("type", JStr "response"); ("status", JStr "pad:ok")])])
  else if Set_has _pads pad then
    let* o := exec ("virtualpad-admin pad clear " ++ to_string pad) in
    let code := code_of o in
    let* details :=
      if truthy (int code)
      then ret (JObj [("satus", JStr "error"); ("hint", JStr "unknown");
                      ("dump", JStr (stderr o))])
      else jsonParse (stdout o) in
    ret (JObj [("code", int code); ("details", details)])
  else
    ret (JObj [("code", int 1);
               ("details", JObj [("satus", JStr "error");
                                 ("hint", JStr "pad:invalid-index");
                                 ("index", pad)])]).

Definition status : Async Value :=
  let* o := exec "virtualpad-admin pad status" in
  let code := code_of o in
  let* details :=
    if truthy (int code)
    then ret (JObj [("satus", JStr "error"); ("hint", JStr "unknown");
                    ("dump", JStr (stderr o))])
    else jsonParse (stdout o) in
  ret (JObj [("code", int code); ("details", details)]).

Definition resetPasswords (pads : Value) : Async Value :=
  let pads := if truthy pads then pads else JArr [] in
  let pads := if strict_equals_str pads "all"
              then JArr [int 0; int 1; int 2; int 3; int 4; int 5; int 6; int 7]
              else pads in
  match pads with
  | JArr elems =>
      let elems := filter (Set_has _pads) elems in
      if (length elems =? 0)%nat then ret (JObj [("code", int 0)])
      else
        let pads := Array_join elems " " in
        let* o := exec ("virtualpad-admin pad reset-passwords " ++ pads) in
        let code := code_of o in
        let* details :=
          if truthy (int code)
          then ret (JObj [("satus", JStr "error"); ("hint", JStr "unknown");
                          ("dump", JStr (stderr o))])
          else jsonParse (stdout o) in
        ret (JObj [("code", int code); ("details", details)])
  | _ => throw (TypeError "pads.filter is not a function")
  end.

(** The calls a client of the module can make. *)
Inductive Call : Type :=
| CallStartServer
| CallStopServer
| CallCheckServer
| CallClearPad (pad : Value)
| CallStatus
| CallResetPasswords (pads : Value).

Definition perform (c : Call) : Async Value :=
  match c with
  | CallStartServer => startServer
  | CallStopServer => stopServer
  | CallCheckServer => checkServer
  | CallClearPad pad => clearPad pad
  | CallStatus => status
  | CallResetPasswords pads => resetPasswords pads
  end.

End VirtualPad.

Arguments perform JSON_parse c inv : rename.

(* ================================================================= *)
(** ** A reader for the replies of the admin tool

    [JSON.parse] belongs to the host and stays a parameter of the
    model.  To run the operations on concrete replies, [read_json]
    reads the fragment of JSON the tool answers with: objects, arrays,
    strings without escapes, integers, [true], [false] and [null],
    with blanks between tokens.  Anything else is refused. *)

Module Reader.

Definition quote : ascii := "034"%char.

Definition is_blank (c : ascii) : bool :=
  let n := nat_of_ascii c in
  ((n =? 32) || (n =? 9) || (n =? 10) || (n =? 13))%nat.

Definition is_digit (c : ascii) : bool :=
  let n := nat_of_ascii c in ((48 <=? n) && (n <=? 57))%nat.

Definition digit_value (c : ascii) : Z := Z.of_nat (nat_of_ascii c) - 48.

Fixpoint skip_blanks (s : string) : string :=
  match s with
  | String c rest => if is_blank c then skip_blanks rest else s
  | EmptyString => s
  end.

(** Characters up to the closing quote; escapes and control characters
    are refused. *)
Fixpoint read_chars (s : string) : option (string * string) :=
  match s with
  | EmptyString => None
  | String c rest =>
      if Ascii.eqb c quote then Some ("", rest)
      else if Ascii.eqb c "092"%char then None
      else if (nat_of_ascii c <? 32)%nat then None
      else match read_chars rest with
           | Some (body, rest') => Some (String c body, rest')
           | None => None
           end
  end.

Fixpoint read_digits (acc : Z) (s : string) : Z * string :=
  match s with
  | String c rest =>
      if is_digit c then read_digits (10 * acc + digit_value c) rest else (acc, s)
  | EmptyString => (acc, s)
  end.

(** An integer: [0], or a non-zero digit followed by digits; a
    fraction or an exponent after it is refused. *)
Definition read_natural (s : string) : option (Z * string) :=
  match s with
  | String c rest =>
      if is_digit c then
        let (n, rest') := if Ascii.eqb c "0"%char then (0, rest)
                          else read_digits (digit_value c) rest in
        match rest' with
        | String d _ =>
            if is_digit d || Ascii.eqb d "."%char
               || Ascii.eqb d "e"%char || Ascii.eqb d "E"%char
            then None else Some (n, rest')
        | EmptyString => Some (n, rest')
        end
      else None
  | EmptyString => None
  end.

Definition strip (word : string) (s : string) : option string :=
  if String.prefix word s
  then Some (substring (String.length word) (String.length s - String.length word) s)
  else None.

(** Assignment of an own property: an existing key keeps its place. *)
Fixpoint assign (key : string) (v : Value) (fields : list (string * Value))
  : list (string * Value) :=
  match fields with
  | [] => [(key, v)]
  | (k, w) :: rest =>
      if (k =? key)%string then (k, v) :: rest else (k, w) :: assign key v rest
  end.

Fixpoint read_value (fuel : nat) (s : string) : option (Value * string) :=
  match fuel with
  | O => None
  | S fuel =>
      match skip_blanks s with
      | EmptyString => None
      | String c rest as s' =>
          if Ascii.eqb c quote then
            match read_chars rest with
            | Some (body, rest') => Some (JStr body, rest')
            | None => None
            end
          else if Ascii.eqb c "["%char then
            match skip_blanks rest with
            | String "]"%char rest' => Some (JArr [], rest')
            | _ =>
                match read_elements fuel rest with
                | Some (elems, rest') => Some (JArr elems, rest')
                | None => None
                end
            end
          else if Ascii.eqb c "{"%char then
            match skip_blanks rest with
            | String "}"%char rest' => Some (JObj [], rest')
            | _ =>
                match read_members fuel [] rest with
                | Some (fields, rest') => Some (JObj fields, rest')
                | None => None
                end
            end
          else if Ascii.eqb c "-"%char then
            match read_natural rest with
            | Some (n, rest') => Some (int (- n), rest')
            | None => None
            end
          else if is_digit c then
            match read_natural s' with
            | Some (n, rest') => Some (int n, rest')
            | None => None
            end
          else
            match strip "true" s', strip "false" s', strip "null" s' with
            | Some rest', _, _ => Some (JBool true, rest')
            | _, Some rest', _ => Some (JBool false, rest')
            | _, _, Some rest' => Some (JNull, rest')
            | _, _, _ => None
            end
      end
  end

with read_elements (fuel : nat) (s : string) : option (list Value * string) :=
  match fuel with
  | O => None
  | S fuel =>
      match read_value fuel s with
      | Some (v, rest) =>
          match skip_blanks rest with
          | String "]"%char rest' => Some ([v], rest')
          | String ","%char rest' =>
              match read_elements fuel rest' with
              | Some (vs, rest'') => Some (v :: vs, rest'')
              | None => None
              end
          | _ => None
          end
      | None => None
      end
  end

with read_members (fuel : nat) (acc : list (string * Value)) (s : string)
  : option (list (string * Value) * string) :=
  match fuel with
  | O => None
  | S fuel =>
      match skip_blanks s with
      | String c rest =>
          if Ascii.eqb c quote then
            match read_chars rest with
            | Some (key, rest1) =>
                match skip_blanks rest1 with
                | String ":"%char rest2 =>
                    match read_value fuel rest2 with
                    | Some (v, rest3) =>
                        let acc := assign key v acc in
                        match skip_blanks rest3 with
                        | String "}"%char rest4 => Some (acc, rest4)
                        | String ","%char rest4 => read_members fuel acc rest4
                        | _ => None
                        end
                    | None => None
                    end
                | _ => None
                end
            | None => None
            end
          else None
      | EmptyString => None
      end
  end.

Definition read_json (text : string) : option Value :=
  match read_value (2 * String.length text + 2) text with
  | Some (v, rest) =>
      match skip_blanks rest with
      | EmptyString => Some v
      | _ => None
      end
  | None => None
  end.

(** [q "a"] is the text [a] between double quotes. *)
Definition q (s : string) : string :=
  String quote (s ++ String quote EmptyString).

(** The text of a value, for values whose strings need no escape:
    [undefined], [NaN] and the infinities are written [null]. *)
Fixpoint write_json (v : Value) : string :=
  match v with
  | JUndefined | JNull => "null"
  | JBool true => "true"
  | JBool false => "false"
  | JNum (NInt z) => number_to_string (NInt z)
  | JNum (NDec repr) => repr
  | JNum _ => "null"
  | JStr s => q s
  | JArr elems => "[" ++ String.concat "," (map write_json elems) ++ "]"
  | JObj fields =>
      "{" ++ String.concat ","
               (map (fun kv => q (fst kv) ++ ":" ++ write_json (snd kv)) fields)
          ++ "}"
  end.

End Reader.

(* ================================================================= *)
(** ** components/hooks/gamepad

    [useGamepad] polls the first connected gamepad every 100 ms and
    keeps what it read in the state [gamepadInfo]; [discretizeAxis]
    rounds an axis value to a direction. *)

Module Gamepad.

(** A number as the comparisons of [discretizeAxis] see it.  A finite
    double is carried by the rational it denotes, so that [<], [<=] and
    [>] on doubles are the order of the rationals; the two zeros are
    identified, as these comparisons identify them. *)
Inductive Double : Type :=
| Finite (q : QArith_base.Q)
| NaN
| Infinity (negative : bool).

(** [a < b]: false as soon as one side is [NaN]. *)
Definition lt (a b : Double) : bool :=
  match a, b with
  | NaN, _ | _, NaN => false
  | Finite p, Finite q =>
      match QArith_base.Qcompare p q with Lt => true | _ => false end
  | Finite _, Infinity negative => negb negative
  | Infinity negative, Finite _ => negative
  | Infinity n1, Infinity n2 => n1 && negb n2
  end.

(** [a <= b]. *)
Definition le (a b : Double) : bool :=
  match a, b with
  | NaN, _ | _, NaN => false
  | Finite p, Finite q => QArith_base.Qle_bool p q
  | Finite _, Infinity negative => negb negative
  | Infinity negative, Finite _ => negative
  | Infinity n1, Infinity n2 => n1 || negb n2
  end.

(** [a > b]. *)
Definition gt (a b : Double) : bool := lt b a.

(** Unary minus. *)
Definition neg (a : Double) : Double :=
  match a with
  | Finite q => Finite (QArith_base.Qopp q)
  | NaN => NaN
  | Infinity negative => Infinity (negb negative)
  end.

(** The double written [0.1]: 3602879701896397 / 2^55. *)
Definition tenth : QArith_base.Q :=
  QArith_base.Qmake 3602879701896397 36028797018963968.

Definition of_Z (z : Z) : Double := Finite (QArith_base.inject_Z z).

Definition discretizeAxis (value : Double) : Double :=
  if gt value (neg (Finite tenth)) && lt value (Finite tenth) then of_Z 0
  else if le value (neg (Finite tenth)) then of_Z (-1)
  else of_Z 1.

(** What the Gamepad API reports for one gamepad: the [pressed] flag
    of each button, and the axes. *)
Record Gamepad : Type := mkGamepad {
  buttons : list bool;
  axes : list Value
}.

(** The state [useGamepad] starts from and falls back to. *)
Definition disconnected : Value :=
  JObj [("connected", JBool false);
        ("buttonA", JBool false); ("buttonB", JBool false);
        ("buttonX", JBool false); ("buttonY", JBool false);
        ("joystick", JArr [int 0; int 0]);
        ("joystickRight", JArr [int 0; int 0]);
        ("RB", JBool false); ("LB", JBool false);
        ("RT", JBool false); ("LT", JBool false);
        ("start", JBool false); ("select", JBool false);
        ("up", JBool false); ("down", JBool false);
        ("left", JBool false); ("right", JBool false)].

(** Sequencing of evaluations that may throw. *)
Definition and_then {A B} (c : Completion A) (k : A -> Completion B)
  : Completion B :=
  match c with
  | Returned a => k a
  | Thrown e => Thrown e
  end.

Notation "'let!' x ':=' c 'in' k" := (and_then c (fun x => k))
  (at level 10, x name, c at level 100, k at level 200).

(** [gamepad.buttons[i].pressed]: reading [pressed] off a missing
    button throws. *)
Definition pressed (gamepad : Gamepad) (i : nat) : Completion Value :=
  match nth_error (buttons gamepad) i with
  | Some b => Returned (JBool b)
  | None =>
      Thrown (TypeError "Cannot read properties of undefined (reading 'pressed')")
  end.

(** [gamepad.axes[i]]: a missing axis reads [undefined]. *)
Definition axis (gamepad : Gamepad) (i : nat) : Value :=
  nth i (axes gamepad) JUndefined.

(** The object literal [newGamepadInfo], its properties evaluated in
    the order they are written. *)
Definition newGamepadInfo (gamepad : Gamepad) : Completion Value :=
  let! buttonA := pressed gamepad 0 in
  let! buttonB := pressed gamepad 1 in
  let! buttonX := pressed gamepad 2 in
  let! buttonY := pressed gamepad 3 in
  let joystickRight := JArr [axis gamepad 2; axis gamepad 3] in
  let! LT := pressed gamepad 6 in
  let! RT := pressed gamepad 7 in
  let! LB := pressed gamepad 4 in
  let! RB := pressed gamepad 5 in
  let! start := pressed gamepad 9 in
  let! select := pressed gamepad 8 in
  let! up := pressed gamepad 12 in
  let! down := pressed gamepad 13 in
  let! left := pressed gamepad 14 in
  let! right := pressed gamepad 15 in
  let joystick := JArr [axis gamepad 0; axis gamepad 1] in
  Returned (JObj [("connected", JBool true);
                  ("buttonA", buttonA); ("buttonB", buttonB);
                  ("buttonX", buttonX); ("buttonY", buttonY);
                  ("joystickRight", joystickRight);
                  ("LT", LT); ("RT", RT); ("LB", LB); ("RB", RB);
                  ("start", start); ("select", select);
                  ("up", up); ("down", down);
                  ("left", left); ("right", right);
                  ("joystick", joystick)]).

Section UseGamepad.

(** [JSON.stringify] of the host, on the objects kept in the state. *)
Variable JSON_stringify : Value -> string.

(** [updateGamepadState], run with the state [gamepadInfo] of the
    current render and with what [gamepads[0]] holds ([None] when it is
    missing or null).  It returns [Some info] when it calls
    [setGamepadInfo(info)] and [None] when it leaves the state alone. *)
Definition updateGamepadState (gamepadInfo : Value) (gamepad : option Gamepad)
  : Completion (option Value) :=
  match gamepad with
  | Some gamepad =>
      let! newGamepadInfo := newGamepadInfo gamepad in
      if negb (JSON_stringify newGamepadInfo =? JSON_stringify gamepadInfo)%string
      then Returned (Some newGamepadInfo)
      else Returned None
  | None =>
      if truthy (match get "connected" gamepadInfo with
                 | Some v => v
                 | None => JUndefined
                 end)
      then Returned (Some disconnected)
      else Returned None
  end.

(** What reaches the hook: a tick of the 100 ms interval or a
    [gamepadconnected] event, both running [updateGamepadState] on
    what [gamepads[0]] holds then, and a [gamepaddisconnected] event. *)
Inductive Signal : Type :=
| Poll (gamepad : option Gamepad)
| Disconnected.

(** The state after a signal.  A call that throws sets nothing. *)
Definition after (gamepadInfo : Value) (s : Signal) : Value :=
  match s with
  | Poll gamepad =>
      match updateGamepadState gamepadInfo gamepad with
      | Returned (Some info) => info
      | _ => gamepadInfo
      end
  | Disconnected => disconnected
  end.

Definition after_all (gamepadInfo : Value) (signals : list Signal) : Value :=
  fold_left after signals gamepadInfo.

End UseGamepad.

End Gamepad.

(* ================================================================= *)
(** ** components/common/VirtualKeyboard

    The component keeps the text being edited in React state.  Its
    handlers are modelled as transitions on that state: each handler
    runs against the state of the latest render, and the component
    renders again before the next handler runs.  A character of a
    string stands for one code unit. *)

Module VirtualKeyboard.

(** [v[i]] as [+] appends it to a string. *)
Definition char_at (v : string) (i : nat) : string :=
  match String.get i v with
  | Some c => String c EmptyString
  | None => "undefined"
  end.

(** [for (let i = 0; i < l_; i++) chars += "*"], [n] rounds to go. *)
Fixpoint mask_loop (n : nat) (chars : string) : string :=
  match n with
  | O => chars
  | S n => mask_loop n (chars ++ "*")
  end.

Definition secretize (v : string) : string :=
  if (String.length v =? 0)%nat then ""
  else
    let chars := "" in
    let l_ := (String.length v - 1)%nat in
    let chars := mask_loop l_ chars in
    chars ++ char_at v l_.

(** The function [() => { onChange(value) }] that [open] stores: it
    keeps the [onChange] and the [value] [open] was called with. *)
Record Closure : Type := mkClosure {
  handler : nat;
  captured : string
}.

(** The state of the component; [onChange] is [None] for
    [{callback: null}]. *)
Record State : Type := mkState {
  caption : string;
  open : bool;
  value : string;
  onChange : option Closure;
  isSecret : bool;
  closeReady : bool
}.

(** The state of the first render. *)
Definition initial : State :=
  {| caption := ""; open := false; value := ""; onChange := None;
     isSecret := false; closeReady := false |}.

Definition setCaption (st : State) (c : string) : State :=
  {| caption := c; open := open st; value := value st;
     onChange := onChange st; isSecret := isSecret st;
     closeReady := closeReady st |}.

Definition setOpen (st : State) (b : bool) : State :=
  {| caption := caption st; open := b; value := value st;
     onChange := onChange st; isSecret := isSecret st;
     closeReady := closeReady st |}.

Definition setValue (st : State) (v : string) : State :=
  {| caption := caption st; open := open st; value := v;
     onChange := onChange st; isSecret := isSecret st;
     closeReady := closeReady st |}.

Definition setOnChange (st : State) (c : option Closure) : State :=
  {| caption := caption st; open := open st; value := value st;
     onChange := c; isSecret := isSecret st;
     closeReady := closeReady st |}.

Definition setIsSecret (st : State) (b : bool) : State :=
  {| caption := caption st; open := open st; value := value st;
     onChange := onChange st; isSecret := b;
     closeReady := closeReady st |}.

Definition setCloseReady (st : State) (b : bool) : State :=
  {| caption := caption st; open := open st; value := value st;
     onChange := onChange st; isSecret := isSecret st;
     closeReady := b |}.

(** What reaches the component.  [Open] is [ref.current.open], whose
    [onChange] argument is named by a number; [PressClose] is
    [refClose.current()]; [CloseTimer] is the timeout set on mount. *)
Inductive Action : Type :=
| Open (caption : string) (isSecret : bool) (value : string) (onChange : nat)
| Append (chr : string)
| Backspace
| Confirm
| Cancel
| PressClose
| CloseTimer.

(** A call [onChange(argument)] of a function handed to [open]. *)
Definition Notification : Type := (nat * string)%type.

Section Handlers.

(** Whether the function named [f] throws when called on a string. *)
Variable raises : nat -> string -> bool.

(** [onChange.callback(value)]: the stored function takes no
    parameter, so the argument is dropped. *)
Definition call_callback (st : State) (argument : string)
  : Completion unit * list Notification :=
  match onChange st with
  | None => (Thrown (TypeError "onChange.callback is not a function"), [])
  | Some c =>
      (if raises (handler c) (captured c)
       then Thrown (TypeError "thrown by onChange")
       else Returned tt,
       [(handler c, captured c)])
  end.

Definition append (st : State) (chr : string) : State :=
  setValue st (value st ++ chr).

Definition backspace (st : State) : State :=
  setValue st
    (if negb (String.length (value st) =? 0)%nat
     then substring 0 (String.length (value st) - 1) (value st)
     else "").

(** [try { onChange.callback(value) } catch {}; setOpen(false)]. *)
Definition confirm (st : State) : State * list Notification :=
  let (_, calls) := call_callback st (value st) in
  (setOpen st false, calls).

Definition cancel (st : State) : State := setOpen st false.

Definition step (st : State) (a : Action) : State * list Notification :=
  match a with
  | Open caption isSecret value onChange =>
      let st := setCaption st caption in
      let st := setIsSecret st isSecret in
      let st := setValue st value in
      let st := setOnChange st (Some (mkClosure onChange value)) in
      (setOpen st true, [])
  | Append chr => (append st chr, [])
  | Backspace => (backspace st, [])
  | Confirm => confirm st
  | Cancel => (cancel st, [])
  | PressClose => (if closeReady st then setOpen st false else st, [])
  | CloseTimer => (setCloseReady st true, [])
  end.

Fixpoint run (st : State) (actions : list Action) : State * list Notification :=
  match actions with
  | [] => (st, [])
  | a :: rest =>
      let (st1, calls1) := step st a in
      let (st2, calls2) := run st1 rest in
      (st2, (calls1 ++ calls2)%list)
  end.

End Handlers.

(** The [value] of the rendered input; [None] while closed. *)
Definition rendered (st : State) : option string :=
  if negb (open st) then None
  else Some (if isSecret st then secretize (value st) else value st).

(** The actions that edit the text. *)
Definition is_edit (a : Action) : bool :=
  match a with
  | Append _ | Backspace => true
  | _ => false
  end.

Definition is_close_timer (a : Action) : bool :=
  match a with
  | CloseTimer => true
  | _ => false
  end.

End VirtualKeyboard.

(* ================================================================= *)
(** ** Running the operations: general facts *)

(** The object [{code, details}]. *)
Definition mk_result (c : Z) (details : Value) : Value :=
  JObj [("code", int c); ("details", details)].

(** The envelope built after a non-zero exit code:
    [{satus: "error", hint: "unknown", dump}]. *)
Definition process_error (dump : string) : Value :=
  JObj [("satus", JStr "error"); ("hint", JStr "unknown"); ("dump", JStr dump)].

(** The tail shared by the operations that decode the reply of the
    tool: [{code, details: code ? {satus: ...} : jsonParse(stdout)}]. *)
Definition decode (JSON_parse : string -> option Value) (o : ExecOutcome)
  : Async Value :=
  let code := code_of o in
  bind (if truthy (int code)
        then ret (process_error (stderr o))
        else jsonParse JSON_parse (stdout o))
       (fun details => ret (mk_result code details)).

(** The error envelope as the specification words it:
    [{status: "error", hint, dump}]. *)
Definition error_envelope (hint dump : string) : Value :=
  JObj [("status", JStr "error"); ("hint", JStr hint); ("dump", JStr dump)].

(** The envelope [clearPad("all")] builds itself on a zero exit code. *)
Definition pad_ok : Value :=
  JObj [("type", JStr "response"); ("status", JStr "pad:ok")].

(** The exit status of an outcome, [0] standing for a missing one. *)
Definition exit_status (o : ExecOutcome) : Z :=
  match result o with
  | Some {| code := Some n |} => n
  | _ => 0
  end.

(** An outcome built from its three observable parts. *)
Definition outcome (out err : string) (status : option Z) : ExecOutcome :=
  {| stdout := out; stderr := err; result := Some {| code := status |} |}.

(** An invoker that answers every command line alike. *)
Definition always (o : ExecOutcome) : Invoker := fun _ => o.

(** The arguments the operations are written for.  [resetPasswords]
    documents its parameter as an array or the string ["all"], and
    replaces a missing or falsy one by the empty array; the other
    operations take anything. *)
Definition accepts (c : Call) : bool :=
  match c with
  | CallResetPasswords pads =>
      negb (truthy pads)
      || strict_equals_str pads "all"
      || match pads with JArr _ => true | _ => false end
  | _ => true
  end.

(** The test a client makes on a result: [details.status === "error"]. *)
Definition status_is_error (details : Value) : bool :=
  match get "status" details with
  | Some v => strict_equals_str v "error"
  | None => false
  end.

(** The command line a call hands to [exec], if it runs one. *)
Definition command_line (c : Call) : option string :=
  match c with
  | CallStartServer => Some "virtualpad-admin server start"
  | CallStopServer => Some "virtualpad-admin server stop"
  | CallCheckServer => Some "virtualpad-admin server check"
  | CallClearPad pad =>
      if strict_equals_str pad "all" then Some "virtualpad-admin pad clear-all"
      else if Set_has _pads pad
           then Some ("virtualpad-admin pad clear " ++ to_string pad)
           else None
  | CallStatus => Some "virtualpad-admin pad status"
  | CallResetPasswords pads =>
      let pads := if truthy pads then pads else JArr [] in
      let pads := if strict_equals_str pads "all"
                  then JArr [int 0; int 1; int 2; int 3; int 4; int 5; int 6; int 7]
                  else pads in
      match pads with
      | JArr elems =>
          match filter (Set_has _pads) elems with
          | [] => None
          | kept => Some ("virtualpad-admin pad reset-passwords "
                          ++ Array_join kept " ")
          end
      | _ => None
      end
  end.



Lemma code_of_exit_status (o : ExecOutcome) : code_of o = exit_status o.
Proof.
  unfold code_of, exit_status.
  destruct (result o) as [[[n|]]|]; simpl; trivial.
  destruct (Z.eqb_spec n 0); congruence.
Qed.

Lemma strict_equals_str_true (v : Value) (literal : string) :
  strict_equals_str v literal = true -> v = JStr literal.
Proof.
  destruct v; simpl; try discriminate.
  intros H. apply String.eqb_eq in H. now subst.
Qed.

Section Runs.

Variable JSON_parse : string -> option Value.
Variable inv : Invoker.

Lemma decode_run (o : ExecOutcome) :
  decode JSON_parse o inv =
  if code_of o =? 0
  then (Returned (mk_result (code_of o)
                    match JSON_parse (stdout o) with
                    | Some v => v
                    | None => error_envelope "unknown" (stdout o)
                    end),
        [EvParse (stdout o)])
  else (Returned (mk_result (code_of o) (process_error (stderr o))), []).
Proof.
  unfold decode. cbn [truthy int].
  destruct (code_of o =? 0); cbn [negb]; [|reflexivity].
  unfold jsonParse, bind, tell.
  destruct (JSON_parse (stdout o)); reflexivity.
Qed.

Lemma exec_decode_run (cmd : string) :
  bind (exec cmd) (decode JSON_parse) inv =
  (fst (decode JSON_parse (inv cmd) inv),
   EvExec cmd :: snd (decode JSON_parse (inv cmd) inv)).
Proof.
  unfold bind, exec.
  destruct (decode JSON_parse (inv cmd) inv); reflexivity.
Qed.

(** What a run of [exec] followed by the decoder hands to [exec]. *)
Lemma exec_decode_commands (cmd : string) :
  commands (events (bind (exec cmd) (decode JSON_parse) inv)) = [cmd].
Proof.
  rewrite exec_decode_run, decode_run.
  destruct (code_of (inv cmd) =? 0); reflexivity.
Qed.

Lemma clearPad_all_run :
  clearPad JSON_parse (JStr "all") inv =
  let o := inv "virtualpad-admin pad clear-all" in
  (Returned (mk_result (code_of o)
               (if code_of o =? 0 then pad_ok else process_error (stderr o))),
   [EvExec "virtualpad-admin pad clear-all"]).
Proof.
  unfold clearPad, bind, exec, ret. cbn.
  destruct (code_of (inv "virtualpad-admin pad clear-all") =? 0); reflexivity.
Qed.

(** Every call takes one of three courses: it runs one command and
    decodes the reply; it is [clearPad("all")]; or it calls no
    collaborator at all. *)
Lemma perform_cases (c : Call) :
  (c <> CallClearPad (JStr "all") /\
   exists cmd, perform JSON_parse c inv = bind (exec cmd) (decode JSON_parse) inv)
  \/ c = CallClearPad (JStr "all")
  \/ events (perform JSON_parse c inv) = [].
Proof.
  destruct c as [| | |pad| |pads]; cbn [perform].
  - left. split; [discriminate|]. now eexists.
  - left. split; [discriminate|]. now eexists.
  - left. split; [discriminate|]. now eexists.
  - unfold clearPad.
    destruct (strict_equals_str pad "all") eqn:Eall.
    + right; left. f_equal. now apply strict_equals_str_true.
    + destruct (Set_has _pads pad).
      * left. split; [|now eexists].
        intros H. injection H as ->. discriminate Eall.
      * right; right. reflexivity.
  - left. split; [discriminate|]. now eexists.
  - unfold resetPasswords.
    destruct (strict_equals_str (if truthy pads then pads else JArr []) "all").
    + left. split; [discriminate|]. now eexists.
    + destruct (if truthy pads then pads else JArr []);
        try (right; right; reflexivity).
      destruct (length (filter (Set_has _pads) elems) =? 0)%nat.
      * right; right. reflexivity.
      * left. split; [discriminate|]. now eexists.
Qed.

End Runs.

(** Splits a goal about a call that handed [cmd] to [exec] (hypothesis
    [Hin]) along the courses of [perform_cases]; the course without
    calls is closed, and in the other two [cmd] becomes the command
    line the call ran. *)
Ltac by_course JSON_parse inv c cmd Hin :=
  let ran := fresh "ran" in
  let Hrun := fresh "Hrun" in
  let Hnone := fresh "Hnone" in
  let Hother := fresh "Hother" in
  destruct (perform_cases JSON_parse inv c) as [[Hother [ran Hrun]]|[->|Hnone]];
  [ rewrite Hrun in *; rewrite exec_decode_commands in Hin;
    destruct Hin as [Hin|[]]; subst ran
  | cbn [perform] in *; rewrite clearPad_all_run in *;
    destruct Hin as [Hin|[]]; subst cmd
  | rewrite Hnone in Hin; destruct Hin ].

(* ================================================================= *)
(** ** Results of the operations that run the admin command *)

(** C1 (as amended).  Whenever a call hands a command line to [exec]
    and the exit code is not zero, the result is
    [{code: exitCode, details}] where [details] is a three-field
    envelope holding ["error"], [hint: "unknown"] and [dump: stderr],
    whatever was printed on the standard output.  When the exit code is
    zero and the standard output does not parse, every call except
    [clearPad("all")] returns
    [{code: 0, details: {status: "error", hint: "unknown", dump: stdout}}];
    [clearPad("all")] returns its own success envelope instead. *)
Theorem C1_invocation_results
    (JSON_parse : string -> option Value) (c : Call) (inv : Invoker) (cmd : string) :
  In cmd (commands (events (perform JSON_parse c inv))) ->
  let o := inv cmd in
  let r := completion (perform JSON_parse c inv) in
  (code_of o <> 0 ->
     exists key,
       r = Returned (mk_result (code_of o)
                       (JObj [(key, JStr "error"); ("hint", JStr "unknown");
                              ("dump", JStr (stderr o))])))
  /\ (code_of o = 0 -> JSON_parse (stdout o) = None ->
      c <> CallClearPad (JStr "all") ->
      r = Returned (mk_result 0 (error_envelope "unknown" (stdout o))))
  /\ (code_of o = 0 -> c = CallClearPad (JStr "all") ->
      r = Returned (mk_result 0 pad_ok)).
Proof.
  intros Hin o r. subst o r.
  by_course JSON_parse inv c cmd Hin.
  - unfold completion. rewrite exec_decode_run, decode_run. cbn [fst].
    destruct (Z.eqb_spec (code_of (inv cmd)) 0) as [E|E].
    + split; [contradiction|]. split; [|contradiction].
      intros _ Hparse _. rewrite Hparse, E. reflexivity.
    + split; [|split; intros E'; contradiction].
      intros _. exists "satus". reflexivity.
  - cbn [completion fst].
    destruct (Z.eqb_spec (code_of (inv "virtualpad-admin pad clear-all")) 0) as [E|E].
    + split; [contradiction|]. split; [intros _ _ H; now elim H|].
      intros _ _. rewrite E. reflexivity.
    + split; [|split; intros E'; contradiction].
      intros _. exists "satus". reflexivity.
Qed.

(** C1, witness: [status()] against a tool that exits with 2, [status()]
    against a zero exit code with unparseable output, and
    [clearPad("all")] against the same. *)
Lemma C1_invocation_results_witness :
  (exists key,
     completion (perform Reader.read_json CallStatus
                   (always (outcome "junk" "boom" (Some 2)))) =
     Returned (mk_result 2 (JObj [(key, JStr "error"); ("hint", JStr "unknown");
                                  ("dump", JStr "boom")])))
  /\ completion (perform Reader.read_json CallStatus
                   (always (outcome "not json" "" (Some 0)))) =
     Returned (mk_result 0 (error_envelope "unknown" "not json"))
  /\ completion (perform Reader.read_json (CallClearPad (JStr "all"))
                   (always (outcome "not json" "" (Some 0)))) =
     Returned (mk_result 0 pad_ok).
Proof.
  split; [|split].
  - refine (proj1 (C1_invocation_results Reader.read_json CallStatus
                     (always (outcome "junk" "boom" (Some 2)))
                     "virtualpad-admin pad status" _) _).
    + vm_compute. left. reflexivity.
    + vm_compute. discriminate.
  - refine (proj1 (proj2 (C1_invocation_results Reader.read_json CallStatus
                            (always (outcome "not json" "" (Some 0)))
                            "virtualpad-admin pad status" _)) _ _ _).
    + vm_compute. left. reflexivity.
    + reflexivity.
    + reflexivity.
    + discriminate.
  - refine (proj2 (proj2 (C1_invocation_results Reader.read_json
                            (CallClearPad (JStr "all"))
                            (always (outcome "not json" "" (Some 0)))
                            "virtualpad-admin pad clear-all" _)) _ _).
    + vm_compute. left. reflexivity.
    + reflexivity.
    + reflexivity.
Defined.

(** C1, as the specification states it, fails twice: the envelope of a
    non-zero exit code spells its first key [satus], and
    [clearPad("all")] on a zero exit code never looks at an unparseable
    standard output. *)
Lemma C1_counterexample :
  (let run := perform Reader.read_json CallStartServer
                (always (outcome "" "boom" (Some 2))) in
   commands (events run) = ["virtualpad-admin server start"]
   /\ completion run <> Returned (mk_result 2 (error_envelope "unknown" "boom")))
  /\
  (let run := perform Reader.read_json (CallClearPad (JStr "all"))
                (always (outcome "not json" "" (Some 0))) in
   commands (events run) = ["virtualpad-admin pad clear-all"]
   /\ Reader.read_json "not json" = None
   /\ completion run <> Returned (mk_result 0 (error_envelope "unknown" "not json"))).
Proof.
  split; cbv zeta.
  - split; [reflexivity|]. vm_compute. discriminate.
  - split; [reflexivity|]. split; [reflexivity|]. vm_compute. discriminate.
Qed.

(* ================================================================= *)
(** ** clearPad *)

Lemma clearPad_invalid_run
    (JSON_parse : string -> option Value) (inv : Invoker) (pad : Value) :
  strict_equals_str pad "all" = false ->
  Set_has _pads pad = false ->
  clearPad JSON_parse pad inv =
  (Returned (JObj [("code", int 1);
                   ("details", JObj [("satus", JStr "error");
                                     ("hint", JStr "pad:invalid-index");
                                     ("index", pad)])]),
   []).
Proof.
  intros Hall Hpad. unfold clearPad. rewrite Hall, Hpad. reflexivity.
Qed.

(** C2, on the code.  [clearPad(8)] calls no collaborator and returns
    [{code: 1, details: {satus: "error", hint: "pad:invalid-index",
    index: 8}}]: the envelope the specification asks for, except that
    its first key is spelled [satus] where the specification, and the
    envelope built by [jsonParse], have [status]. *)
Theorem C2_clearPad_8_spells_satus
    (JSON_parse : string -> option Value) (inv : Invoker) :
  let run := perform JSON_parse (CallClearPad (int 8)) inv in
  events run = []
  /\ completion run =
     Returned (JObj [("code", int 1);
                     ("details", JObj [("satus", JStr "error");
                                       ("hint", JStr "pad:invalid-index");
                                       ("index", int 8)])])
  /\ completion run <>
     Returned (JObj [("code", int 1);
                     ("details", JObj [("status", JStr "error");
                                       ("hint", JStr "pad:invalid-index");
                                       ("index", int 8)])]).
Proof.
  cbv zeta. cbn [perform].
  rewrite clearPad_invalid_run by reflexivity.
  split; [reflexivity|]. split; [reflexivity|].
  cbn [completion fst]. intros H. discriminate H.
Qed.

Lemma pads_to_string :
  map to_string _pads =
  ["0"; "1"; "2"; "3"; "4"; "5"; "6"; "7"; "0"; "1"; "2"; "3"; "4"; "5"; "6"; "7"].
Proof. reflexivity. Qed.

(** C3.  For every pad index [z] from 0 to 7, given as a number or as
    its decimal string, [clearPad] hands [exec] the one command line
    [virtualpad-admin pad clear <z>].  [clearPad("all")] hands it
    [virtualpad-admin pad clear-all], never calls [JSON.parse], and on a
    zero exit code returns [{type: "response", status: "pad:ok"}] as
    details. *)
Theorem C3_clearPad_commands
    (JSON_parse : string -> option Value) (inv : Invoker) :
  (forall z : Z, 0 <= z <= 7 ->
     let cmd := "virtualpad-admin pad clear " ++ to_string (int z) in
     commands (events (perform JSON_parse (CallClearPad (int z)) inv)) = [cmd]
     /\ commands (events (perform JSON_parse
                            (CallClearPad (JStr (to_string (int z)))) inv)) = [cmd])
  /\ (let run := perform JSON_parse (CallClearPad (JStr "all")) inv in
      commands (events run) = ["virtualpad-admin pad clear-all"]
      /\ parsed (events run) = []
      /\ (code_of (inv "virtualpad-admin pad clear-all") = 0 ->
          completion run = Returned (mk_result 0 pad_ok))).
Proof.
  split.
  - intros z Hz cmd. subst cmd.
    assert (Hcases : z = 0 \/ z = 1 \/ z = 2 \/ z = 3 \/
                     z = 4 \/ z = 5 \/ z = 6 \/ z = 7) by lia.
    repeat (destruct Hcases as [->|Hcases]); try subst z;
      (split; exact (exec_decode_commands JSON_parse inv _)).
  - cbv zeta. cbn [perform]. rewrite clearPad_all_run. cbv zeta.
    repeat split.
    intros E. rewrite E. reflexivity.
Qed.

(** C3, witness: pad 5 in both forms, and ["all"] on a zero exit code. *)
Lemma C3_clearPad_commands_witness :
  let inv := always (outcome "ignored" "" (Some 0)) in
  (commands (events (perform Reader.read_json (CallClearPad (int 5)) inv))
     = ["virtualpad-admin pad clear 5"]
   /\ commands (events (perform Reader.read_json (CallClearPad (JStr "5")) inv))
     = ["virtualpad-admin pad clear 5"])
  /\ completion (perform Reader.read_json (CallClearPad (JStr "all")) inv)
     = Returned (mk_result 0 pad_ok).
Proof.
  cbv zeta. split.
  - apply (proj1 (C3_clearPad_commands Reader.read_json
                    (always (outcome "ignored" "" (Some 0)))) 5). lia.
  - apply (proj2 (C3_clearPad_commands Reader.read_json
                    (always (outcome "ignored" "" (Some 0))))). reflexivity.
Defined.

(* ================================================================= *)
(** ** resetPasswords *)

Lemma filter_none {A} (f : A -> bool) (l : list A) :
  Forall (fun a => f a = false) l -> filter f l = [].
Proof.
  induction 1 as [|a l Ha _ IH]; cbn; [reflexivity|]. now rewrite Ha.
Qed.

(** C4.  [resetPasswords(undefined)], [resetPasswords([])] and
    [resetPasswords(l)] for a list [l] none of whose elements is a pad
    index return the object [{code: 0}], which has no [details], and
    call no collaborator. *)
Theorem C4_resetPasswords_nothing_to_do
    (JSON_parse : string -> option Value) (inv : Invoker) :
  let noop := (Returned (JObj [("code", int 0)]), @nil Event) in
  perform JSON_parse (CallResetPasswords JUndefined) inv = noop
  /\ perform JSON_parse (CallResetPasswords (JArr [])) inv = noop
  /\ (forall l : list Value,
        Forall (fun e => Set_has _pads e = false) l ->
        perform JSON_parse (CallResetPasswords (JArr l)) inv = noop).
Proof.
  cbv zeta. split; [reflexivity|]. split; [reflexivity|].
  intros l Hl. cbn [perform]. unfold resetPasswords. cbn [truthy strict_equals_str].
  rewrite (filter_none _ _ Hl). reflexivity.
Qed.

(** C4, witness: the all-invalid list [[9, 10]]. *)
Lemma C4_resetPasswords_nothing_to_do_witness :
  perform Reader.read_json (CallResetPasswords (JArr [int 9; int 10]))
    (always (outcome "" "" (Some 0)))
  = (Returned (JObj [("code", int 0)]), []).
Proof.
  apply (proj2 (proj2 (C4_resetPasswords_nothing_to_do Reader.read_json
                         (always (outcome "" "" (Some 0)))))).
  repeat constructor.
Defined.

Lemma join_element_pad (e : Value) :
  Set_has _pads e = true -> join_element e = to_string e.
Proof. destruct e; trivial; discriminate. Qed.

Lemma join_kept (l : list Value) :
  map join_element (filter (Set_has _pads) l) =
  map to_string (filter (Set_has _pads) l).
Proof.
  induction l as [|e l IH]; cbn [filter]; [reflexivity|].
  destruct (Set_has _pads e) eqn:He; [|exact IH].
  cbn [map]. now rewrite IH, join_element_pad.
Qed.

(** C5 (as amended).  For every input list, [resetPasswords] keeps the
    elements that are pad indices, in their order and as often as they
    occur, and drops the others; if any is kept, the one command line
    handed to [exec] is [virtualpad-admin pad reset-passwords] followed
    by the kept elements separated by single spaces.  For
    [[3, 1, 99, 2]] the arguments are [3 1 2]. *)
Theorem C5_resetPasswords_indices
    (JSON_parse : string -> option Value) (inv : Invoker) :
  (forall l : list Value,
     commands (events (perform JSON_parse (CallResetPasswords (JArr l)) inv)) =
     match filter (Set_has _pads) l with
     | [] => []
     | kept => ["virtualpad-admin pad reset-passwords "
                ++ String.concat " " (map to_string kept)]
     end)
  /\ commands (events (perform JSON_parse
                         (CallResetPasswords (JArr [int 3; int 1; int 99; int 2])) inv))
     = ["virtualpad-admin pad reset-passwords 3 1 2"].
Proof.
  assert (Hall : forall l : list Value,
     commands (events (perform JSON_parse (CallResetPasswords (JArr l)) inv)) =
     match filter (Set_has _pads) l with
     | [] => []
     | kept => ["virtualpad-admin pad reset-passwords "
                ++ String.concat " " (map to_string kept)]
     end).
  { intros l. cbn [perform]. unfold resetPasswords.
    cbn [truthy strict_equals_str]. unfold Array_join. rewrite join_kept.
    destruct (filter (Set_has _pads) l) as [|e kept]; [reflexivity|].
    cbn [length Nat.eqb]. apply exec_decode_commands. }
  split; [exact Hall|]. rewrite Hall. reflexivity.
Qed.

(** C5, as the specification states it, fails on a repeated index:
    [resetPasswords([1, 1])] passes [1 1], not [1]. *)
Lemma C5_counterexample :
  let run := perform Reader.read_json (CallResetPasswords (JArr [int 1; int 1]))
               (always (outcome "" "" (Some 0))) in
  commands (events run) = ["virtualpad-admin pad reset-passwords 1 1"]
  /\ commands (events run) <> ["virtualpad-admin pad reset-passwords 1"].
Proof.
  cbv zeta. split; [reflexivity|]. vm_compute. discriminate.
Qed.

(** C6.  [resetPasswords("all")] hands [exec] exactly one command line,
    whose arguments are [0 1 2 3 4 5 6 7]. *)
Theorem C6_resetPasswords_all
    (JSON_parse : string -> option Value) (inv : Invoker) :
  commands (events (perform JSON_parse (CallResetPasswords (JStr "all")) inv))
  = ["virtualpad-admin pad reset-passwords 0 1 2 3 4 5 6 7"].
Proof. exact (exec_decode_commands JSON_parse inv _). Qed.

(* ================================================================= *)
(** ** Decoding, completion and exit codes *)

(** C7 (as amended).  Whenever a call other than [clearPad("all")]
    hands a command line to [exec], the exit code is zero and
    [JSON.parse] turns the standard output into a value [V], the result
    is [{code: 0, details: V}]: the parsed value itself, unchanged and
    unwrapped. *)
Theorem C7_parsed_payload_verbatim
    (JSON_parse : string -> option Value) (c : Call) (inv : Invoker)
    (cmd : string) (V : Value) :
  In cmd (commands (events (perform JSON_parse c inv))) ->
  code_of (inv cmd) = 0 ->
  JSON_parse (stdout (inv cmd)) = Some V ->
  c <> CallClearPad (JStr "all") ->
  completion (perform JSON_parse c inv) = Returned (mk_result 0 V)
  /\ get "details" (mk_result 0 V) = Some V.
Proof.
  intros Hin Hcode Hparse Hne. split; [|reflexivity].
  by_course JSON_parse inv c cmd Hin.
  - unfold completion. rewrite exec_decode_run, decode_run, Hcode, Hparse.
    reflexivity.
  - now elim Hne.
Qed.

(** C7, witness: [status()] decoding [{"code":"pad:status","value":[]}]. *)
Lemma C7_parsed_payload_verbatim_witness :
  let reply := "{" ++ Reader.q "code" ++ ":" ++ Reader.q "pad:status" ++ ","
               ++ Reader.q "value" ++ ":[]}" in
  let V := JObj [("code", JStr "pad:status"); ("value", JArr [])] in
  completion (perform Reader.read_json CallStatus
                (always (outcome reply "" (Some 0))))
  = Returned (mk_result 0 V)
  /\ get "details" (mk_result 0 V) = Some V.
Proof.
  cbv zeta.
  apply (C7_parsed_payload_verbatim Reader.read_json CallStatus _
           "virtualpad-admin pad status").
  - vm_compute. left. reflexivity.
  - reflexivity.
  - vm_compute. reflexivity.
  - discriminate.
Defined.

(** C7, as the specification states it, fails for [clearPad("all")]:
    on a zero exit code and the standard output [{"code":"pad:ok"}],
    the details are the envelope built by the operation, not the
    object the output encodes. *)
Lemma C7_counterexample :
  let reply := "{" ++ Reader.q "code" ++ ":" ++ Reader.q "pad:ok" ++ "}" in
  let V := JObj [("code", JStr "pad:ok")] in
  let run := perform Reader.read_json (CallClearPad (JStr "all"))
               (always (outcome reply "" (Some 0))) in
  commands (events run) = ["virtualpad-admin pad clear-all"]
  /\ Reader.read_json reply = Some V
  /\ completion run = Returned (mk_result 0 pad_ok)
  /\ completion run <> Returned (mk_result 0 V).
Proof.
  cbv zeta. repeat split; try reflexivity. vm_compute. discriminate.
Qed.

Lemma exec_decode_returns
    (JSON_parse : string -> option Value) (inv : Invoker) (cmd : string) :
  exists v, completion (bind (exec cmd) (decode JSON_parse) inv) = Returned v.
Proof.
  unfold completion. rewrite exec_decode_run, decode_run.
  destruct (code_of (inv cmd) =? 0); eexists; reflexivity.
Qed.

(** C8 (as amended).  Every operation returns a value and does not
    throw, for every argument it is written for: any argument of
    [clearPad], and for [resetPasswords] an array, the string ["all"],
    or a missing or falsy argument. *)
Theorem C8_operations_return
    (JSON_parse : string -> option Value) (c : Call) (inv : Invoker) :
  accepts c = true ->
  exists v, completion (perform JSON_parse c inv) = Returned v.
Proof.
  intros Hc.
  destruct c as [| | |pad| |pads]; cbn [perform];
    try apply exec_decode_returns.
  - destruct (strict_equals_str pad "all") eqn:Eall.
    + apply strict_equals_str_true in Eall. subst pad.
      rewrite clearPad_all_run. eexists; reflexivity.
    + unfold clearPad. rewrite Eall.
      destruct (Set_has _pads pad);
        [apply exec_decode_returns | eexists; reflexivity].
  - unfold resetPasswords. cbn [accepts] in Hc.
    destruct (truthy pads) eqn:Etruthy.
    + destruct (strict_equals_str pads "all") eqn:Eall;
        [apply exec_decode_returns|].
      destruct pads; try discriminate Hc.
      destruct (length (filter (Set_has _pads) elems) =? 0)%nat;
        [eexists; reflexivity | apply exec_decode_returns].
    + eexists; reflexivity.
Qed.

(** C8, witness: [resetPasswords([3, 1, 99, 2])]. *)
Lemma C8_operations_return_witness :
  exists v,
    completion (perform Reader.read_json
                  (CallResetPasswords (JArr [int 3; int 1; int 99; int 2]))
                  (always (outcome "null" "" None))) = Returned v.
Proof.
  apply (C8_operations_return Reader.read_json
           (CallResetPasswords (JArr [int 3; int 1; int 99; int 2]))).
  reflexivity.
Defined.

(** C8, as the specification states it, fails for a single pad index:
    [resetPasswords(3)] and [resetPasswords("3")] throw a [TypeError]
    before any command is run. *)
Lemma C8_counterexample :
  let inv := always (outcome "null" "" (Some 0)) in
  perform Reader.read_json (CallResetPasswords (int 3)) inv
  = (Thrown (TypeError "pads.filter is not a function"), [])
  /\ perform Reader.read_json (CallResetPasswords (JStr "3")) inv
  = (Thrown (TypeError "pads.filter is not a function"), []).
Proof. split; reflexivity. Qed.

(** Outside the arguments [resetPasswords] is written for, it throws. *)
Lemma rejected_calls_throw
    (JSON_parse : string -> option Value) (c : Call) (inv : Invoker) :
  accepts c = false ->
  exists e, perform JSON_parse c inv = (Thrown e, []).
Proof.
  destruct c as [| | |pad| |pads]; try discriminate.
  cbn [accepts perform]. unfold resetPasswords. intros Hc.
  destruct (truthy pads); [|discriminate Hc].
  destruct (strict_equals_str pads "all"); [discriminate Hc|].
  destruct pads; try discriminate Hc; eexists; reflexivity.
Qed.

(** C9.  Whenever a call hands a command line to [exec], the [code]
    of the object it returns is the exit status of the process when
    there is one, and 0 when the process result, or its code, is
    missing. *)
Theorem C9_code_is_exit_status
    (JSON_parse : string -> option Value) (c : Call) (inv : Invoker) (cmd : string) :
  In cmd (commands (events (perform JSON_parse c inv))) ->
  exists v,
    completion (perform JSON_parse c inv) = Returned v
    /\ (forall n : Z,
          result (inv cmd) = Some {| code := Some n |} ->
          get "code" v = Some (int n))
    /\ (result (inv cmd) = None \/ result (inv cmd) = Some {| code := None |} ->
        get "code" v = Some (int 0)).
Proof.
  intros Hin.
  assert (Hcode : exists details,
            completion (perform JSON_parse c inv)
            = Returned (mk_result (exit_status (inv cmd)) details)).
  { rewrite <- code_of_exit_status.
    by_course JSON_parse inv c cmd Hin.
    - unfold completion. rewrite exec_decode_run, decode_run.
      destruct (code_of (inv cmd) =? 0); eexists; reflexivity.
    - eexists; reflexivity. }
  destruct Hcode as [details ->]. eexists. split; [reflexivity|].
  unfold exit_status. split.
  - intros n ->. reflexivity.
  - intros [-> | ->]; reflexivity.
Qed.

(** C9, witness: [stopServer()] against an exit status of 3. *)
Lemma C9_code_is_exit_status_witness :
  exists v,
    completion (perform Reader.read_json CallStopServer
                  (always (outcome "" "no such server" (Some 3)))) = Returned v
    /\ get "code" v = Some (int 3).
Proof.
  destruct (C9_code_is_exit_status Reader.read_json CallStopServer
              (always (outcome "" "no such server" (Some 3)))
              "virtualpad-admin server stop")
    as [v [Hv [Hsome _]]].
  - vm_compute. left. reflexivity.
  - exists v. split; [exact Hv|]. apply Hsome. reflexivity.
Defined.

(** C10.  The error envelopes do not share their first key.  After a
    non-zero exit code the details have the keys [satus], [hint],
    [dump]; after an invalid argument of [clearPad] they have [satus],
    [hint], [index]; in both, [details.status] is [undefined].  After
    a failed [JSON.parse] the details have the keys [status], [hint],
    [dump].  So the test [details.status === "error"] holds after a
    decode failure and fails after a process or validation failure. *)
Theorem C10_envelope_keys
    (JSON_parse : string -> option Value) (c : Call) (inv : Invoker) :
  (forall cmd : string,
     In cmd (commands (events (perform JSON_parse c inv))) ->
     code_of (inv cmd) <> 0 ->
     exists v details,
       completion (perform JSON_parse c inv) = Returned v
       /\ get "details" v = Some details
       /\ keys details = ["satus"; "hint"; "dump"]
       /\ get "status" details = None
       /\ status_is_error details = false)
  /\ (forall pad : Value,
        c = CallClearPad pad ->
        strict_equals_str pad "all" = false ->
        Set_has _pads pad = false ->
        exists v details,
          completion (perform JSON_parse c inv) = Returned v
          /\ get "details" v = Some details
          /\ keys details = ["satus"; "hint"; "index"]
          /\ get "status" details = None
          /\ status_is_error details = false)
  /\ (forall text : string,
        In text (parsed (events (perform JSON_parse c inv))) ->
        JSON_parse text = None ->
        exists v details,
          completion (perform JSON_parse c inv) = Returned v
          /\ get "details" v = Some details
          /\ keys details = ["status"; "hint"; "dump"]
          /\ get "status" details = Some (JStr "error")
          /\ status_is_error details = true).
Proof.
  split; [|split].
  - intros cmd Hin Hcode. apply Z.eqb_neq in Hcode.
    by_course JSON_parse inv c cmd Hin.
    + unfold completion. rewrite exec_decode_run, decode_run, Hcode.
      do 2 eexists. repeat split.
    + cbv zeta. rewrite Hcode.
      do 2 eexists. repeat split.
  - intros pad -> Hall Hpad. cbn [perform].
    rewrite clearPad_invalid_run by assumption.
    do 2 eexists. repeat split.
  - intros text Hin Hparse.
    destruct (perform_cases JSON_parse inv c) as [[_ [cmd Hrun]]|[->|Hnone]].
    + rewrite Hrun in *. unfold events, completion in *.
      rewrite exec_decode_run, decode_run in *.
      destruct (code_of (inv cmd) =? 0); cbn in Hin; [|destruct Hin].
      destruct Hin as [<-|[]]. rewrite Hparse.
      do 2 eexists. repeat split.
    + cbn [perform] in Hin. rewrite clearPad_all_run in Hin. destruct Hin.
    + rewrite Hnone in Hin. destruct Hin.
Qed.

(** C10, witness: a process failure and a decode failure of
    [checkServer()], and [clearPad(-1)]. *)
Lemma C10_envelope_keys_witness :
  (exists v details,
     completion (perform Reader.read_json CallCheckServer
                   (always (outcome "" "boom" (Some 2)))) = Returned v
     /\ get "details" v = Some details
     /\ keys details = ["satus"; "hint"; "dump"]
     /\ get "status" details = None
     /\ status_is_error details = false)
  /\ (exists v details,
        completion (perform Reader.read_json (CallClearPad (int (-1)))
                      (always (outcome "" "" (Some 0)))) = Returned v
        /\ get "details" v = Some details
        /\ keys details = ["satus"; "hint"; "index"]
        /\ get "status" details = None
        /\ status_is_error details = false)
  /\ (exists v details,
        completion (perform Reader.read_json CallCheckServer
                      (always (outcome "not json" "" (Some 0)))) = Returned v
        /\ get "details" v = Some details
        /\ keys details = ["status"; "hint"; "dump"]
        /\ get "status" details = Some (JStr "error")
        /\ status_is_error details = true).
Proof.
  split; [|split].
  - apply (proj1 (C10_envelope_keys Reader.read_json CallCheckServer
                    (always (outcome "" "boom" (Some 2))))
             "virtualpad-admin server check").
    + vm_compute. left. reflexivity.
    + vm_compute. discriminate.
  - apply (proj1 (proj2 (C10_envelope_keys Reader.read_json
                           (CallClearPad (int (-1)))
                           (always (outcome "" "" (Some 0)))))
             (int (-1))); reflexivity.
  - apply (proj2 (proj2 (C10_envelope_keys Reader.read_json CallCheckServer
                           (always (outcome "not json" "" (Some 0)))))
             "not json").
    + vm_compute. left. reflexivity.
    + reflexivity.
Defined.

(* ================================================================= *)
(** ** Further properties of virtualpad.js *)

Section Courses.

Variable JSON_parse : string -> option Value.
Variable inv : Invoker.

(** A call that runs no command calls no collaborator; a call that
    runs one is [clearPad("all")] or runs it and decodes the reply. *)
Lemma perform_course (c : Call) :
  match command_line c with
  | None => events (perform JSON_parse c inv) = []
  | Some cmd =>
      perform JSON_parse c inv =
      if match c with
         | CallClearPad pad => strict_equals_str pad "all"
         | _ => false
         end
      then clearPad JSON_parse (JStr "all") inv
      else bind (exec cmd) (decode JSON_parse) inv
  end.
Proof.
  destruct c as [| | |pad| |pads]; cbn [perform command_line]; try reflexivity.
  - destruct (strict_equals_str pad "all") eqn:Eall.
    + apply strict_equals_str_true in Eall. now subst pad.
    + unfold clearPad. rewrite Eall.
      destruct (Set_has _pads pad); reflexivity.
  - unfold resetPasswords.
    destruct (strict_equals_str (if truthy pads then pads else JArr []) "all").
    + reflexivity.
    + destruct (if truthy pads then pads else JArr []); try reflexivity.
      destruct (filter (Set_has _pads) elems); reflexivity.
Qed.

End Courses.

(** X1.  A call never runs more than one command, and [JSON.parse]
    is never called on anything but the standard output of that
    command: the calls a run makes to its collaborators are none, or
    one [exec] (after a non-zero exit code, or for [clearPad("all")]),
    or one [exec] followed by one [JSON.parse] of its standard output
    (after a zero exit code). *)
Theorem X1_one_command_one_parse
    (JSON_parse : string -> option Value) (c : Call) (inv : Invoker) :
  let t := events (perform JSON_parse c inv) in
  t = []
  \/ exists cmd,
       command_line c = Some cmd
       /\ ((t = [EvExec cmd]
            /\ (code_of (inv cmd) <> 0 \/ c = CallClearPad (JStr "all")))
           \/ (t = [EvExec cmd; EvParse (stdout (inv cmd))]
               /\ code_of (inv cmd) = 0
               /\ c <> CallClearPad (JStr "all"))).
Proof.
  cbv zeta. pose proof (perform_course JSON_parse inv c) as H.
  destruct (command_line c) as [cmd|] eqn:Ecmd; [|now left].
  right. exists cmd. split; [reflexivity|]. rewrite H. clear H.
  destruct c as [| | |pad| |pads];
    try (rewrite exec_decode_run, decode_run; cbn [events snd];
         destruct (Z.eqb_spec (code_of (inv cmd)) 0);
         [ right; repeat split; [assumption | discriminate]
         | left; split; [reflexivity | now left] ]).
  destruct (strict_equals_str pad "all") eqn:Eall.
  - apply strict_equals_str_true in Eall. subst pad.
    cbn in Ecmd. injection Ecmd as <-.
    rewrite clearPad_all_run. left. split; [reflexivity | now right].
  - rewrite exec_decode_run, decode_run; cbn [events snd].
    destruct (Z.eqb_spec (code_of (inv cmd)) 0).
    + right. repeat split; [assumption|].
      intros H. injection H as ->. discriminate Eall.
    + left. split; [reflexivity | now left].
Qed.

(** The values [_pads] holds, case by case. *)
Lemma pad_index_cases (v : Value) :
  Set_has _pads v = true ->
  exists z : Z, 0 <= z <= 7 /\ (v = int z \/ v = JStr (to_string (int z))).
Proof.
  unfold Set_has, _pads. cbn [existsb].
  destruct v as [| | |[z| | |]|s| |]; cbn [same_value_zero number_same int];
    try discriminate.
  - rewrite !orb_false_r. rewrite !orb_true_iff, !Z.eqb_eq.
    intros H. exists z. split; [lia | now left].
  - rewrite !orb_true_iff, !String.eqb_eq. cbn [orb].
    intros H.
    repeat (destruct H as [H|H]; try discriminate H);
      subst s;
      [ exists 0 | exists 1 | exists 2 | exists 3
      | exists 4 | exists 5 | exists 6 | exists 7 ];
      (split; [lia | now right]).
Qed.


(** X2.  The pad indices are exactly the integers 0 to 7 and their
    decimal renderings: [_pads.has(v)] holds if and only if [v] is the
    number [z] or the string of [z] for some [z] from 0 to 7.  No other
    number, no other string, and no boolean, array or object is one. *)
Theorem X2_pad_indices (v : Value) :
  Set_has _pads v = true <->
  exists z : Z, 0 <= z <= 7 /\ (v = int z \/ v = JStr (to_string (int z))).
Proof.
  split; [apply pad_index_cases|].
  intros [z [Hz Hv]].
  assert (Hcases : z = 0 \/ z = 1 \/ z = 2 \/ z = 3 \/
                   z = 4 \/ z = 5 \/ z = 6 \/ z = 7) by lia.
  repeat (destruct Hcases as [->|Hcases]); try subst z;
    destruct Hv as [-> | ->]; reflexivity.
Qed.

(** X2, witness: the string ["5"]. *)
Lemma X2_pad_indices_witness : Set_has _pads (JStr "5") = true.
Proof.
  apply (proj2 (X2_pad_indices (JStr "5"))).
  exists 5. split; [lia | now right].
Defined.







Lemma filter_twice {A} (f : A -> bool) (l : list A) :
  filter f (filter f l) = filter f l.
Proof.
  induction l as [|a l IH]; cbn; [reflexivity|].
  destruct (f a) eqn:Ha; cbn; [rewrite Ha, IH|]; easy.
Qed.

(** X5.  The elements of the argument of [resetPasswords] that are not
    pad indices play no part: the run on a list is the run on the list
    with those elements removed, and the run on ["all"] is the run on
    [[0, 1, 2, 3, 4, 5, 6, 7]]. *)
Theorem X5_resetPasswords_ignores_invalid_elements
    (JSON_parse : string -> option Value) (inv : Invoker) :
  (forall l : list Value,
     perform JSON_parse (CallResetPasswords (JArr l)) inv =
     perform JSON_parse (CallResetPasswords (JArr (filter (Set_has _pads) l))) inv)
  /\ perform JSON_parse (CallResetPasswords (JStr "all")) inv =
     perform JSON_parse
       (CallResetPasswords
          (JArr [int 0; int 1; int 2; int 3; int 4; int 5; int 6; int 7])) inv.
Proof.
  split; [|reflexivity].
  intros l. cbn [perform]. unfold resetPasswords.
  cbn [truthy strict_equals_str]. now rewrite filter_twice.
Qed.

Section Agreement.

Variable JSON_parse : string -> option Value.
Variables inv1 inv2 : Invoker.

Hypothesis same_code : forall cmd, code_of (inv1 cmd) = code_of (inv2 cmd).
Hypothesis same_stderr_on_failure :
  forall cmd, code_of (inv1 cmd) <> 0 -> stderr (inv1 cmd) = stderr (inv2 cmd).
Hypothesis same_stdout_on_success :
  forall cmd, code_of (inv1 cmd) = 0 -> stdout (inv1 cmd) = stdout (inv2 cmd).

Lemma exec_decode_agree (cmd : string) :
  bind (exec cmd) (decode JSON_parse) inv1 =
  bind (exec cmd) (decode JSON_parse) inv2.
Proof.
  rewrite !exec_decode_run, !decode_run, <- same_code.
  destruct (Z.eqb_spec (code_of (inv1 cmd)) 0) as [E|E].
  - now rewrite (same_stdout_on_success cmd E).
  - now rewrite (same_stderr_on_failure cmd E).
Qed.

Lemma clearPad_all_agree :
  clearPad JSON_parse (JStr "all") inv1 = clearPad JSON_parse (JStr "all") inv2.
Proof.
  rewrite !clearPad_all_run. cbv zeta. rewrite <- same_code.
  destruct (Z.eqb_spec (code_of (inv1 "virtualpad-admin pad clear-all")) 0) as [E|E].
  - reflexivity.
  - now rewrite (same_stderr_on_failure _ E).
Qed.

Lemma perform_agree (c : Call) :
  perform JSON_parse c inv1 = perform JSON_parse c inv2.
Proof.
  destruct c as [| | |pad| |pads]; cbn [perform];
    try apply exec_decode_agree.
  - destruct (strict_equals_str pad "all") eqn:Eall.
    + apply strict_equals_str_true in Eall. subst pad.
      apply clearPad_all_agree.
    + unfold clearPad. rewrite Eall.
      destruct (Set_has _pads pad); [apply exec_decode_agree | reflexivity].
  - unfold resetPasswords.
    destruct (strict_equals_str (if truthy pads then pads else JArr []) "all").
    + apply exec_decode_agree.
    + destruct (if truthy pads then pads else JArr []); try reflexivity.
      destruct (length (filter (Set_has _pads) elems) =? 0)%nat;
        [reflexivity | apply exec_decode_agree].
Qed.

End Agreement.

(** X6.  A run reads the standard error only after a non-zero exit
    code and the standard output only after a zero one.  Two invokers
    that give every command line the same exit code, the same standard
    error whenever that code is not zero and the same standard output
    whenever it is zero, give every call the same completion and the
    same calls to the collaborators. *)
Theorem X6_unread_stream_is_irrelevant
    (JSON_parse : string -> option Value) (inv1 inv2 : Invoker) (c : Call) :
  (forall cmd, code_of (inv1 cmd) = code_of (inv2 cmd)) ->
  (forall cmd, code_of (inv1 cmd) <> 0 -> stderr (inv1 cmd) = stderr (inv2 cmd)) ->
  (forall cmd, code_of (inv1 cmd) = 0 -> stdout (inv1 cmd) = stdout (inv2 cmd)) ->
  perform JSON_parse c inv1 = perform JSON_parse c inv2.
Proof. intros. now apply perform_agree. Qed.

(** X6, witness: a failing [status()] with two different standard
    outputs. *)
Lemma X6_unread_stream_is_irrelevant_witness :
  perform Reader.read_json CallStatus (always (outcome "{}" "boom" (Some 2)))
  = perform Reader.read_json CallStatus (always (outcome "[1]" "boom" (Some 2))).
Proof.
  apply X6_unread_stream_is_irrelevant.
  - reflexivity.
  - reflexivity.
  - intros cmd H. vm_compute in H. discriminate H.
Defined.

Lemma pad_index_not_all (v : Value) :
  Set_has _pads v = true -> strict_equals_str v "all" = false.
Proof.
  intros H. destruct (pad_index_cases v H) as [z [Hz Hv]].
  assert (Hcases : z = 0 \/ z = 1 \/ z = 2 \/ z = 3 \/
                   z = 4 \/ z = 5 \/ z = 6 \/ z = 7) by lia.
  repeat (destruct Hcases as [->|Hcases]); try subst z;
    destruct Hv as [-> | ->]; reflexivity.
Qed.

(** X7.  The number and the string form of a pad index are
    interchangeable.  [clearPad] runs alike on two pad indices with the
    same rendering (such as [3] and ["3"]), and [resetPasswords] runs
    alike on two lists whose pad indices have, in order, the same
    renderings. *)
Theorem X7_pad_forms_interchangeable
    (JSON_parse : string -> option Value) (inv : Invoker) :
  (forall p q : Value,
     Set_has _pads p = true -> Set_has _pads q = true ->
     to_string p = to_string q ->
     perform JSON_parse (CallClearPad p) inv = perform JSON_parse (CallClearPad q) inv)
  /\ (forall l1 l2 : list Value,
        map to_string (filter (Set_has _pads) l1)
        = map to_string (filter (Set_has _pads) l2) ->
        perform JSON_parse (CallResetPasswords (JArr l1)) inv
        = perform JSON_parse (CallResetPasswords (JArr l2)) inv).
Proof.
  split.
  - intros p q Hp Hq Hsame. cbn [perform]. unfold clearPad.
    rewrite (pad_index_not_all p Hp), (pad_index_not_all q Hq), Hp, Hq, Hsame.
    reflexivity.
  - intros l1 l2 Hsame. cbn [perform]. unfold resetPasswords.
    cbn [truthy strict_equals_str]. unfold Array_join.
    rewrite !join_kept, Hsame.
    assert (Hlen : length (filter (Set_has _pads) l1)
                   = length (filter (Set_has _pads) l2)).
    { rewrite <- (length_map to_string (filter (Set_has _pads) l1)), Hsame.
      apply length_map. }
    rewrite Hlen. reflexivity.
Qed.

(** X7, witness: [clearPad(3)] and [clearPad("3")];
    [resetPasswords([1, "x", "2"])] and [resetPasswords(["1", 2, 8])]. *)
Lemma X7_pad_forms_interchangeable_witness :
  let inv := always (outcome "null" "" (Some 0)) in
  perform Reader.read_json (CallClearPad (int 3)) inv
  = perform Reader.read_json (CallClearPad (JStr "3")) inv
  /\ perform Reader.read_json
       (CallResetPasswords (JArr [int 1; JStr "x"; JStr "2"])) inv
     = perform Reader.read_json
         (CallResetPasswords (JArr [JStr "1"; int 2; int 8])) inv.
Proof.
  cbv zeta. split.
  - apply (proj1 (X7_pad_forms_interchangeable Reader.read_json _));
      reflexivity.
  - apply (proj2 (X7_pad_forms_interchangeable Reader.read_json _)).
    reflexivity.
Defined.

(* ================================================================= *)
(** ** Properties of the gamepad hooks *)

Module GamepadFacts.

Import Gamepad.

Lemma lt_finite (p q : QArith_base.Q) :
  lt (Finite p) (Finite q) = true <-> QArith_base.Qlt p q.
Proof.
  cbn [lt]. rewrite QArith_base.Qlt_alt.
  destruct (QArith_base.Qcompare p q); split; congruence.
Qed.

Lemma le_finite (p q : QArith_base.Q) :
  le (Finite p) (Finite q) = true <-> QArith_base.Qle p q.
Proof. apply QArith_base.Qle_bool_iff. Qed.

(** [discretizeAxis] on a finite number, by the place of the number. *)
Lemma discretizeAxis_finite (q : QArith_base.Q) :
  (QArith_base.Qle q (QArith_base.Qopp tenth) ->
   discretizeAxis (Finite q) = of_Z (-1))
  /\ (QArith_base.Qlt (QArith_base.Qopp tenth) q ->
      QArith_base.Qlt q tenth ->
      discretizeAxis (Finite q) = of_Z 0)
  /\ (QArith_base.Qle tenth q -> discretizeAxis (Finite q) = of_Z 1).
Proof.
  unfold discretizeAxis, gt. cbn [neg].
  destruct (lt (Finite (QArith_base.Qopp tenth)) (Finite q)) eqn:Hlow;
  destruct (lt (Finite q) (Finite tenth)) eqn:Hhigh;
  destruct (le (Finite q) (Finite (QArith_base.Qopp tenth))) eqn:Hle;
  cbn [andb];
  try apply lt_finite in Hlow; try apply lt_finite in Hhigh;
  try apply le_finite in Hle;
  try (apply not_true_iff_false in Hlow; rewrite lt_finite in Hlow);
  try (apply not_true_iff_false in Hhigh; rewrite lt_finite in Hhigh);
  try (apply not_true_iff_false in Hle; rewrite le_finite in Hle);
  unfold tenth in *;
  repeat split; intros; try reflexivity; exfalso; Lqa.lra.
Qed.

Lemma discretizeAxis_range (v : Double) :
  discretizeAxis v = of_Z (-1) \/ discretizeAxis v = of_Z 0
  \/ discretizeAxis v = of_Z 1.
Proof.
  unfold discretizeAxis.
  destruct (gt v (neg (Finite tenth)) && lt v (Finite tenth));
    [|destruct (le v (neg (Finite tenth)))]; tauto.
Qed.

(** The place of a rational with respect to the dead zone. *)
Lemma place (q : QArith_base.Q) :
  QArith_base.Qle q (QArith_base.Qopp tenth)
  \/ (QArith_base.Qlt (QArith_base.Qopp tenth) q /\ QArith_base.Qlt q tenth)
  \/ QArith_base.Qle tenth q.
Proof.
  destruct (QArith_base.Qlt_le_dec (QArith_base.Qopp tenth) q) as [H1|H1];
    [|now left].
  destruct (QArith_base.Qlt_le_dec q tenth) as [H2|H2]; [|now right; right].
  right; left. now split.
Qed.

(** Rewrites [discretizeAxis (Finite q)] into its value, once for each
    place of [q]. *)
Ltac by_place q :=
  let H := fresh "Hplace" in
  destruct (place q) as [H|[[H ?]|H]];
  [ rewrite (proj1 (discretizeAxis_finite q) H)
  | rewrite (proj1 (proj2 (discretizeAxis_finite q)) H) by assumption
  | rewrite (proj2 (proj2 (discretizeAxis_finite q)) H) ].

(** X8.  [discretizeAxis] returns -1, 0 or 1 on every number, [NaN]
    and the infinities included, and rounding twice is rounding once. *)
Theorem X8_discretizeAxis_idempotent (v : Double) :
  (discretizeAxis v = of_Z (-1) \/ discretizeAxis v = of_Z 0
   \/ discretizeAxis v = of_Z 1)
  /\ discretizeAxis (discretizeAxis v) = discretizeAxis v.
Proof.
  split; [apply discretizeAxis_range|].
  destruct (discretizeAxis_range v) as [-> | [-> | ->]]; reflexivity.
Qed.

(** X9.  [discretizeAxis] keeps the order: if [v <= w] holds (so
    neither is [NaN]), then [discretizeAxis(v) <= discretizeAxis(w)]. *)
Theorem X9_discretizeAxis_monotone (v w : Double) :
  le v w = true -> le (discretizeAxis v) (discretizeAxis w) = true.
Proof.
  destruct v as [p| |[|]], w as [q| |[|]]; try discriminate; intros Hle.
  - apply le_finite in Hle.
    by_place p; by_place q; try reflexivity;
      exfalso; unfold tenth in *; Lqa.lra.
  - destruct (discretizeAxis_range (Finite p)) as [-> | [-> | ->]]; reflexivity.
  - destruct (discretizeAxis_range (Finite q)) as [-> | [-> | ->]]; reflexivity.
  - reflexivity.
  - reflexivity.
  - reflexivity.
Qed.

(** X9, witness: the doubles 0.05 <= 0.5. *)
Lemma X9_discretizeAxis_monotone_witness :
  le (discretizeAxis (Finite (QArith_base.Qmake 3602879701896397 72057594037927936)))
     (discretizeAxis (Finite (QArith_base.Qmake 1 2))) = true.
Proof. apply X9_discretizeAxis_monotone. reflexivity. Defined.

(** X10.  [discretizeAxis] is odd on every number but [NaN]:
    [discretizeAxis(-v)] is [-discretizeAxis(v)] for a finite or
    infinite [v], so a direction and its opposite share the dead zone.
    [NaN] is sent to 1, and so is [-NaN]. *)
Theorem X10_discretizeAxis_odd :
  (forall v : Double, v <> NaN ->
     discretizeAxis (neg v) = neg (discretizeAxis v))
  /\ discretizeAxis NaN = of_Z 1
  /\ discretizeAxis (neg NaN) = of_Z 1.
Proof.
  split; [|split; reflexivity].
  intros [q| |[|]] Hv; [| now elim Hv | reflexivity | reflexivity].
  cbn [neg].
  by_place q; by_place (QArith_base.Qopp q); try reflexivity;
    exfalso; unfold tenth in *; Lqa.lra.
Qed.

(** X10, witness: the double -0.1, on the edge of the dead zone. *)
Lemma X10_discretizeAxis_odd_witness :
  discretizeAxis (neg (Finite (QArith_base.Qopp tenth)))
  = neg (discretizeAxis (Finite (QArith_base.Qopp tenth))).
Proof. apply (proj1 X10_discretizeAxis_odd). discriminate. Defined.

Section Polling.

Variable JSON_stringify : Value -> string.




(** X12.  Polling the same reading twice sets the state at most once:
    after a poll that returned, a second poll that finds the same
    [gamepads[0]] does not call [setGamepadInfo]. *)
Theorem X12_second_poll_sets_nothing
    (gamepadInfo : Value) (gamepad : option Gamepad) (set : option Value) :
  updateGamepadState JSON_stringify gamepadInfo gamepad = Returned set ->
  updateGamepadState JSON_stringify
    (after JSON_stringify gamepadInfo (Poll gamepad)) gamepad
  = Returned None.
Proof.
  cbn [after]. destruct gamepad as [g|]; cbn [updateGamepadState].
  - destruct (newGamepadInfo g) as [info|e]; cbn [and_then]; [|discriminate].
    intros _.
    destruct (negb (JSON_stringify info =? JSON_stringify gamepadInfo)%string)
      eqn:Hdiff.
    + cbn [and_then]. now rewrite String.eqb_refl.
    + now rewrite Hdiff.
  - intros _.
    destruct (truthy match get "connected" gamepadInfo with
                     | Some v => v
                     | None => JUndefined
                     end) eqn:Hconnected.
    + reflexivity.
    + now rewrite Hconnected.
Qed.

Lemma newGamepadInfo_connected (g : Gamepad) (info : Value) :
  newGamepadInfo g = Returned info ->
  get "connected" info = Some (JBool true).
Proof.
  unfold newGamepadInfo.
  repeat (match goal with
          | |- context [pressed g ?i] =>
              destruct (pressed g i); cbn [and_then]; [|discriminate]
          end).
  intros H. injection H as <-. reflexivity.
Qed.

(** The states the hook can be in. *)
Lemma after_invariant (st : Value) (s : Signal) :
  (st = disconnected \/ exists g, newGamepadInfo g = Returned st) ->
  after JSON_stringify st s = disconnected
  \/ exists g, newGamepadInfo g = Returned (after JSON_stringify st s).
Proof.
  intros Hst. destruct s as [[g|]|]; cbn [after updateGamepadState].
  - destruct (newGamepadInfo g) as [info|e] eqn:Hinfo; cbn [and_then];
      [|exact Hst].
    destruct (negb (JSON_stringify info =? JSON_stringify st)%string);
      [|exact Hst].
    right. now exists g.
  - destruct (truthy match get "connected" st with
                     | Some v => v
                     | None => JUndefined
                     end); [now left | exact Hst].
  - now left.
Qed.

(** X13.  No pressed button survives a disconnection.  Starting from
    the initial state, after any sequence of polls (throwing ones
    included) and [gamepaddisconnected] events, the state is the
    initial one, with every button released and both sticks at
    [[0, 0]], or a reading of a gamepad, whose [connected] is [true];
    so a state whose [connected] is [false] is the initial state. *)
Theorem X13_disconnected_state_is_clean (signals : list Signal) :
  let st := after_all JSON_stringify disconnected signals in
  (st = disconnected \/ exists g, newGamepadInfo g = Returned st)
  /\ (get "connected" st = Some (JBool false) -> st = disconnected).
Proof.
  cbv zeta.
  assert (Hinv : forall st,
            (st = disconnected \/ exists g, newGamepadInfo g = Returned st) ->
            after_all JSON_stringify st signals = disconnected
            \/ exists g, newGamepadInfo g
                         = Returned (after_all JSON_stringify st signals)).
  { unfold after_all. induction signals as [|s rest IH]; intros st Hst;
      cbn [fold_left]; [exact Hst|].
    apply IH. now apply after_invariant. }
  specialize (Hinv disconnected (or_introl eq_refl)).
  split; [exact Hinv|].
  destruct Hinv as [->|[g Hg]]; [reflexivity|].
  intros H. rewrite (newGamepadInfo_connected g _ Hg) in H. discriminate H.
Qed.

End Polling.

(** X12, witness: a pad with 16 released buttons, polled from the
    initial state. *)
Lemma X12_second_poll_sets_nothing_witness :
  let g := Some (mkGamepad (repeat false 16) [int 0; int 0; int 0; int 0]) in
  updateGamepadState Reader.write_json
    (after Reader.write_json disconnected (Poll g)) g
  = Returned None.
Proof.
  cbv zeta.
  eapply (X12_second_poll_sets_nothing Reader.write_json disconnected).
  reflexivity.
Defined.


(** X13, witness: a reading with every button pressed, then a
    disconnection. *)
Lemma X13_disconnected_state_is_clean_witness :
  after_all Reader.write_json disconnected
    [Poll (Some (mkGamepad (repeat true 16) [])); Disconnected]
  = disconnected.
Proof.
  apply (proj2 (X13_disconnected_state_is_clean Reader.write_json
                  [Poll (Some (mkGamepad (repeat true 16) [])); Disconnected])).
  reflexivity.
Defined.

End GamepadFacts.

(* ================================================================= *)
(** ** Properties of the virtual keyboard *)

Module KeyboardFacts.

Import VirtualKeyboard.

Lemma string_length_app (s t : string) :
  String.length (s ++ t) = (String.length s + String.length t)%nat.
Proof. induction s as [|c s IH]; cbn; [reflexivity | now rewrite IH]. Qed.

Lemma get_app_left (s t : string) (i : nat) :
  (i < String.length s)%nat -> String.get i (s ++ t) = String.get i s.
Proof. intros H. symmetry. now apply append_correct1. Qed.

Lemma get_app_right (s t : string) (i : nat) :
  String.get (String.length s + i) (s ++ t) = String.get i t.
Proof. rewrite Nat.add_comm. symmetry. apply append_correct2. Qed.

Lemma get_some (s : string) (i : nat) :
  (i < String.length s)%nat -> exists c, String.get i s = Some c.
Proof.
  revert i. induction s as [|c s IH]; intros i H; cbn in H; [lia|].
  destruct i as [|i]; cbn; [now exists c|]. apply IH. lia.
Qed.

Lemma string_app_assoc (s t u : string) : ((s ++ t) ++ u = s ++ (t ++ u))%string.
Proof. induction s as [|c s IH]; cbn; [reflexivity | now rewrite IH]. Qed.

(** The loop appends its asterisks to what it starts from. *)
Lemma mask_loop_acc (n : nat) (chars : string) :
  mask_loop n chars = chars ++ mask_loop n "".
Proof.
  revert chars. induction n as [|n IH]; intros chars; cbn [mask_loop].
  - induction chars as [|c chars IHc]; cbn; [reflexivity | now rewrite <- IHc].
  - rewrite (IH (chars ++ "*")), (IH ("" ++ "*")). apply string_app_assoc.
Qed.

Lemma mask_length (n : nat) : String.length (mask_loop n "") = n.
Proof.
  induction n as [|n IH]; cbn [mask_loop]; [reflexivity|].
  rewrite mask_loop_acc, string_length_app, IH. reflexivity.
Qed.

Lemma mask_get (n i : nat) :
  (i < n)%nat -> String.get i (mask_loop n "") = Some "*"%char.
Proof.
  revert i. induction n as [|n IH]; intros i H; [lia|].
  cbn [mask_loop]. rewrite mask_loop_acc.
  destruct i as [|i]; [reflexivity|]. cbn. apply IH. lia.
Qed.

(** [secretize] on a text of [n + 1] characters ending in [c]. *)
Lemma secretize_nonempty (v : string) (n : nat) (c : ascii) :
  String.length v = S n -> String.get n v = Some c ->
  secretize v = mask_loop n "" ++ String c "".
Proof.
  intros Hlen Hget. unfold secretize, char_at.
  rewrite Hlen. cbn [Nat.eqb Nat.sub]. rewrite Nat.sub_0_r, Hget. reflexivity.
Qed.

Lemma secretize_shape (v : string) :
  String.length (secretize v) = String.length v
  /\ (forall i, (i + 1 < String.length v)%nat ->
               String.get i (secretize v) = Some "*"%char)
  /\ (forall i, (i + 1 = String.length v)%nat ->
               String.get i (secretize v) = String.get i v).
Proof.
  destruct (String.length v) as [|n] eqn:Hlen.
  - destruct v; [|discriminate Hlen]. cbn. repeat split; intros; lia.
  - destruct (get_some v n) as [c Hc]; [lia|].
    rewrite (secretize_nonempty v n c Hlen Hc).
    split; [|split].
    + rewrite string_length_app, mask_length. cbn. lia.
    + intros i Hi. rewrite get_app_left by (rewrite mask_length; lia).
      apply mask_get. lia.
    + intros i Hi. assert (i = n) as -> by lia.
      rewrite Hc. rewrite <- (mask_length n) at 1.
      rewrite <- (Nat.add_0_r (String.length (mask_loop n ""))).
      rewrite get_app_right. reflexivity.
Qed.

(** X14.  [secretize] keeps the length of the text, shows an asterisk
    at every position but the last, and leaves the last character as
    it is; the empty text stays empty. *)
Theorem X14_secretize_masks_all_but_last (v : string) :
  String.length (secretize v) = String.length v
  /\ (forall i, (i + 1 < String.length v)%nat ->
               String.get i (secretize v) = Some "*"%char)
  /\ (forall i, (i + 1 = String.length v)%nat ->
               String.get i (secretize v) = String.get i v).
Proof. apply secretize_shape. Qed.

(** X14, witness: the text [hunter2]. *)
Lemma X14_secretize_masks_all_but_last_witness :
  String.get 3 (secretize "hunter2") = Some "*"%char
  /\ String.get 6 (secretize "hunter2") = String.get 6 "hunter2".
Proof.
  split.
  - apply (proj1 (proj2 (X14_secretize_masks_all_but_last "hunter2"))).
    cbn. lia.
  - apply (proj2 (proj2 (X14_secretize_masks_all_but_last "hunter2"))).
    reflexivity.
Defined.

Lemma secretize_determined (v w : string) :
  String.length v = String.length w ->
  String.get (String.length v - 1) v = String.get (String.length w - 1) w ->
  secretize v = secretize w.
Proof.
  intros Hlen Hlast. unfold secretize, char_at. now rewrite Hlast, Hlen.
Qed.

(** X15.  What [secretize] shows depends on nothing but the length and
    the last character of the text: two texts of the same length that
    end alike are shown alike.  In particular a text that went through
    [secretize] is left as it is by a second pass. *)
Theorem X15_secretize_shows_length_and_last_only :
  (forall v w : string,
     String.length v = String.length w ->
     String.get (String.length v - 1) v = String.get (String.length w - 1) w ->
     secretize v = secretize w)
  /\ (forall v : string, secretize (secretize v) = secretize v).
Proof.
  split; [exact secretize_determined|].
  intros v. destruct (secretize_shape v) as [Hlen [_ Hlast]].
  apply secretize_determined; [exact Hlen|].
  rewrite Hlen.
  destruct (String.length v) as [|n] eqn:Hv.
  - destruct v; [reflexivity | discriminate Hv].
  - apply Hlast. lia.
Qed.

(** X15, witness: two seven-letter texts ending in [2]. *)
Lemma X15_secretize_shows_length_and_last_only_witness :
  secretize "hunter2" = secretize "abcdef2".
Proof.
  apply (proj1 X15_secretize_shows_length_and_last_only); reflexivity.
Defined.





Section Handling.

Variable raises : nat -> string -> bool.

Lemma run_app (st : State) (xs ys : list Action) :
  run raises st (xs ++ ys) =
  let (st1, calls1) := run raises st xs in
  let (st2, calls2) := run raises st1 ys in
  (st2, (calls1 ++ calls2)%list).
Proof.
  revert st. induction xs as [|a xs IH]; intros st; cbn [run List.app].
  - destruct (run raises st ys). reflexivity.
  - destruct (step raises st a) as [st1 calls1]. rewrite IH.
    destruct (run raises st1 xs) as [st2 calls2].
    destruct (run raises st2 ys) as [st3 calls3].
    now rewrite List.app_assoc.
Qed.

(** Editing calls nobody and keeps the stored function. *)
Lemma run_edits (st : State) (edits : list Action) :
  forallb is_edit edits = true ->
  snd (run raises st edits) = []
  /\ onChange (fst (run raises st edits)) = onChange st.
Proof.
  revert st. induction edits as [|a edits IH]; intros st H; cbn [run];
    [now split|].
  cbn [forallb] in H. apply andb_true_iff in H. destruct H as [Ha H].
  destruct a; try discriminate Ha; cbn [step];
    match goal with
    | |- context [run raises ?st1 edits] =>
        destruct (IH st1 H) as [Hcalls Hkeep];
        destruct (run raises st1 edits) as [st2 calls2]
    end;
    cbn [fst snd] in *; subst calls2; split; trivial.
Qed.

(** X17.  [confirm] hands back the text the keyboard was opened with,
    not the text typed since.  After [open(caption, isSecret, value,
    onChange)] and any number of [append] and [backspace], [confirm]
    calls [onChange] once, on the [value] given to [open], whether or
    not that call throws; nothing else is called, and the keyboard
    ends closed. *)
Theorem X17_confirm_reports_initial_value
    (st : State) (caption : string) (isSecret : bool) (value0 : string)
    (onChange0 : nat) (edits : list Action) :
  forallb is_edit edits = true ->
  let r := run raises st
             (Open caption isSecret value0 onChange0 :: edits ++ [Confirm]) in
  snd r = [(onChange0, value0)] /\ open (fst r) = false.
Proof.
  intros Hedits. cbv zeta. cbn [run step].
  rewrite run_app.
  match goal with
  | |- context [run raises ?st1 edits] =>
      destruct (run_edits st1 edits Hedits) as [Hcalls Hkeep];
      destruct (run raises st1 edits) as [st2 calls2]
  end.
  cbn [fst snd] in *. subst calls2. cbn [run step].
  unfold confirm, call_callback. rewrite Hkeep. cbn [onChange setOpen].
  cbn. split; reflexivity.
Qed.

Lemma closeReady_run (st : State) (actions : list Action) :
  closeReady (fst (run raises st actions))
  = closeReady st || existsb is_close_timer actions.
Proof.
  revert st. induction actions as [|a actions IH]; intros st; cbn [run existsb].
  - now rewrite orb_false_r.
  - destruct (step raises st a) as [st1 calls1] eqn:Hstep.
    specialize (IH st1). destruct (run raises st1 actions) as [st2 calls2].
    cbn [fst] in *. rewrite IH.
    assert (Hone : closeReady st1 = closeReady st || is_close_timer a).
    { destruct a; cbn [step] in Hstep;
        try (injection Hstep as <- _; cbn;
             rewrite ?orb_false_r, ?orb_true_r; reflexivity).
      - unfold confirm in Hstep. destruct (call_callback raises st (value st)).
        injection Hstep as <- _. cbn. now rewrite orb_false_r.
      - injection Hstep as <- _. destruct (closeReady st) eqn:E; cbn; trivial. }
    rewrite Hone. now rewrite orb_assoc.
Qed.

(** X18.  The close button does nothing until the timer set on mount
    has fired, and always closes afterwards.  From the first render,
    after any actions among which there is no [CloseTimer],
    [refClose.current()] leaves the state as it is (an open keyboard
    stays open); after actions among which there is one, it leaves the
    keyboard closed. *)
Theorem X18_close_waits_for_timer (actions : list Action) :
  let st := fst (run raises initial actions) in
  (existsb is_close_timer actions = false ->
   step raises st PressClose = (st, []))
  /\ (existsb is_close_timer actions = true ->
      open (fst (step raises st PressClose)) = false).
Proof.
  cbv zeta. cbn [step].
  rewrite closeReady_run. cbn [closeReady initial orb].
  split; intros ->; reflexivity.
Qed.

End Handling.

(** X17, witness: opened on [abc], then [d] typed, [confirm] reports
    [abc]. *)
Lemma X17_confirm_reports_initial_value_witness :
  let r := run (fun _ _ => false) initial
             (Open "pin" true "abc" 7 :: [Append "d"] ++ [Confirm]) in
  snd r = [(7%nat, "abc")] /\ open (fst r) = false.
Proof.
  apply (X17_confirm_reports_initial_value (fun _ _ => false) initial
           "pin" true "abc" 7 [Append "d"]).
  reflexivity.
Defined.

(** X18, witness: an open keyboard before and after the timer. *)
Lemma X18_close_waits_for_timer_witness :
  (let st := fst (run (fun _ _ => false) initial [Open "pin" true "" 7]) in
   step (fun _ _ => false) st PressClose = (st, []))
  /\ (let st := fst (run (fun _ _ => false) initial
                       [Open "pin" true "" 7; CloseTimer]) in
      open (fst (step (fun _ _ => false) st PressClose)) = false).
Proof.
  split; cbv zeta.
  - apply (proj1 (X18_close_waits_for_timer (fun _ _ => false)
                    [Open "pin" true "" 7])).
    reflexivity.
  - apply (proj2 (X18_close_waits_for_timer (fun _ _ => false)
                    [Open "pin" true "" 7; CloseTimer])).
    reflexivity.
Defined.

End KeyboardFacts.
